(** * ExpiryScanner: the product-identification pipeline and the manual-entry form

    A shallow embedding of [src/services/aiAnalysis.ts] ([analyzeProduct],
    [calculateShelfLifeDays]) and of the [handleSubmit] handler of the
    manual-entry screen, followed by the properties the specification states
    about them.

    Conventions of the embedding.
    - A JavaScript string is a [string]: a sequence of code units, each below
      256.  [length], [includes], [startsWith], [trim] and [toLowerCase] are
      the JavaScript methods on that range.
    - Time values (milliseconds since the epoch) and day counts are integers
      or NaN ([number]).  Numbers that come out of a JSON payload are only
      tested for truthiness and passed on; they are rationals ([JNum]).
    - [async]/[await] is sequential here: an awaited promise either resolves
      to a value or rejects, which is a [throw] at the [await].
    - [console.log], [console.warn] and [console.error] leave no trace in the
      model; the [JSON.stringify] of the transport error that is only logged
      is taken to succeed.
    - [JSON.parse], the [Date] parser, the clock and the conversion of a
      value that is not a string to a string belong to the platform and are
      parameters of the development. *)

From Stdlib Require Import ZArith List String Ascii Bool Lia QArith DecimalString.
Import ListNotations.

Local Open Scope string_scope.
Local Open Scope Z_scope.

(** ** JavaScript strings *)

Module Js.

Definition startsWith (s p : string) : bool :=
  (fix go (s p : string) {struct p} : bool :=
     match p with
     | EmptyString => true
     | String a p' =>
         match s with
         | EmptyString => false
         | String b s' => Ascii.eqb a b && go s' p'
         end
     end) s p.

(** [s.includes(needle)] *)
Fixpoint includes (s needle : string) : bool :=
  startsWith s needle ||
  match s with
  | EmptyString => false
  | String _ s' => includes s' needle
  end.

Definition lower_unit (c : ascii) : ascii :=
  let n := nat_of_ascii c in
  if ((65 <=? n) && (n <=? 90))%nat then ascii_of_nat (n + 32)
  else if ((192 <=? n) && (n <=? 222) && negb (n =? 215))%nat then ascii_of_nat (n + 32)
  else c.

Fixpoint toLowerCase (s : string) : string :=
  match s with
  | EmptyString => EmptyString
  | String c s' => String (lower_unit c) (toLowerCase s')
  end.

(** White space of [String.prototype.trim] among the code units below 256:
    TAB, LF, VT, FF, CR, SPACE and NBSP. *)
Definition is_space (c : ascii) : bool :=
  let n := nat_of_ascii c in
  ((9 <=? n) && (n <=? 13) || (n =? 32) || (n =? 160))%nat.

Fixpoint trimStart (s : string) : string :=
  match s with
  | EmptyString => EmptyString
  | String c s' => if is_space c then trimStart s' else s
  end.

Fixpoint trimEnd (s : string) : string :=
  match s with
  | EmptyString => EmptyString
  | String c s' =>
      match trimEnd s' with
      | EmptyString => if is_space c then EmptyString else String c EmptyString
      | t => String c t
      end
  end.

Definition trim (s : string) : string := trimEnd (trimStart s).

(** Truthiness of a string: every string but the empty one. *)
Definition nonempty (s : string) : bool :=
  match s with EmptyString => false | _ => true end.

(** [a || b] on strings. *)
Definition str_or (a b : string) : string := if nonempty a then a else b.

(** An optional string property ([x?: string]): [None] is [undefined]. *)
Definition opt_truthy (o : option string) : bool :=
  match o with Some s => nonempty s | None => false end.

(** [a || b] on optional strings. *)
Definition opt_or (a b : option string) : option string :=
  if opt_truthy a then a else b.

(** ** Numbers of the clock arithmetic *)

Inductive number : Type :=
| NaN
| Int (z : Z).

Definition sub (a b : number) : number :=
  match a, b with
  | Int x, Int y => Int (x - y)
  | _, _ => NaN
  end.

(** [Math.ceil(a / d)] for a positive integer constant [d].  On the doubles
    of JavaScript the quotient is rounded before [Math.ceil]; for the day
    length and a difference of time values below 2^53 that rounding never
    reaches the next integer, and the result is the exact ceiling. *)
Definition ceil_div (a : number) (d : Z) : number :=
  match a with
  | Int x => Int (- ((- x) / d))
  | NaN => NaN
  end.

(** [1000 * 60 * 60 * 24], the divisor of both day computations. *)
Definition msPerDay : Z := 1000 * 60 * 60 * 24.

(** Every comparison with NaN is false. *)
Definition lt (a : number) (z : Z) : bool :=
  match a with Int x => x <? z | NaN => false end.

Definition strict_eq (a : number) (z : Z) : bool :=
  match a with Int x => x =? z | NaN => false end.

(** The string a template literal puts for a number. *)
Definition Number_toString (a : number) : string :=
  match a with
  | NaN => "NaN"
  | Int x => NilZero.string_of_int (Z.to_int x)
  end.

(** ** Values *)

#[warnings="-register-all"]
Inductive JsVal : Type :=
| JUndefined
| JNull
| JBool (b : bool)
| JNum (q : Q)
| JStr (s : string)
| JArr (items : list JsVal)
| JObj (props : list (string * JsVal))
| JDate (tv : number).

Definition truthy (v : JsVal) : bool :=
  match v with
  | JUndefined | JNull => false
  | JBool b => b
  | JNum q => negb (Qeq_bool q 0)
  | JStr s => nonempty s
  | JArr _ | JObj _ | JDate _ => true
  end.

(** [a || b] *)
Definition or_else (a b : JsVal) : JsVal := if truthy a then a else b.

Fixpoint lookup (ps : list (string * JsVal)) (k : string) : JsVal :=
  match ps with
  | [] => JUndefined
  | (k', v) :: ps' => if String.eqb k' k then v else lookup ps' k
  end.

(** [v.k] for a [v] that is neither [undefined] nor [null]. *)
Definition prop (v : JsVal) (k : string) : JsVal :=
  match v with
  | JObj ps => lookup ps k
  | _ => JUndefined
  end.

(** [v === true] *)
Definition is_true (v : JsVal) : bool :=
  match v with JBool true => true | _ => false end.

(** ** Computations: a trace of the calls made to collaborators, and either
    a thrown value or a result *)

Section Computations.
Context {E X : Type}.

Definition M (A : Type) : Type := (list E * (X + A))%type.

Definition trace {A} (m : M A) : list E := fst m.
Definition outcome {A} (m : M A) : X + A := snd m.

Definition ret {A} (a : A) : M A := ([], inr a).
Definition throw {A} (x : X) : M A := ([], inl x).
Definition emit (e : E) : M unit := ([e], inr tt).

Definition bind {A B} (m : M A) (k : A -> M B) : M B :=
  match outcome m with
  | inl x => (trace m, inl x)
  | inr a => ((trace m ++ trace (k a))%list, outcome (k a))
  end.

(** [try { m } catch (x) { h x }] *)
Definition try_catch {A} (m : M A) (h : X -> M A) : M A :=
  match outcome m with
  | inl x => ((trace m ++ trace (h x))%list, outcome (h x))
  | inr a => (trace m, inr a)
  end.

(** [try { m } finally { f }], for an [f] that does not throw. *)
Definition try_finally {A} (m : M A) (f : M unit) : M A :=
  ((trace m ++ trace f)%list, outcome m).

(** [m] ends with a result that satisfies [P] or with a thrown value that
    satisfies [Q]. *)
Definition ensures {A} (P : A -> Prop) (Q : X -> Prop) (m : M A) : Prop :=
  match outcome m with
  | inl x => Q x
  | inr a => P a
  end.
End Computations.

Arguments M : clear implicits.

Declare Scope comp_scope.
Delimit Scope comp_scope with comp.
Notation "x <- m ;; k" := (bind m (fun x => k))
  (at level 61, m at next level, right associativity) : comp_scope.
Notation "m ;;; k" := (bind m (fun _ => k))
  (at level 61, right associativity) : comp_scope.

End Js.

(** ** [src/services/aiAnalysis.ts] *)

Module AiAnalysis.
Import Js.
Local Open Scope comp_scope.

Record ProductAnalysisResult : Type := {
  name : JsVal;
  category : JsVal;
  shelfLifeDays : number;
  confidenceScore : JsVal;
  expiryDate : JsVal;
  manualEntryRequired : JsVal
}.

Module Options.
Record t : Type := { barcode : option string; imageUri : option string; code : option string }.
End Options.

(** The body handed to [supabase.functions.invoke]. *)
Module Request.
Record t : Type := { code : string; imageUri : option string }.
End Request.

(** What awaiting [.text()] on a body gives: the text, or a rejection. *)
Inductive BodyText : Type :=
| TextOk (s : string)
| TextFails.

(** [error.context._bodyInit]: whether its [_data] is truthy, and what
    [new Response(_bodyInit).text()] gives. *)
Record BodyInit : Type := { _data : bool; responseText : BodyText }.

(** [error.context.body]: a string, a [Blob], or some other object. *)
Inductive ContextBody : Type :=
| BodyString (s : string)
| BodyBlob (t : BodyText)
| BodyOther.

Module Context.
Record t : Type := {
  status : option Z;
  _bodyBlob : option BodyText;
  bodyUsed : bool;
  _bodyInit : option BodyInit;
  body : option ContextBody
}.
End Context.

(** The [error] member of what [invoke] resolves to. *)
Module FunctionsError.
Record t : Type := {
  context : option Context.t;
  status : option Z;
  message : option string
}.
End FunctionsError.

(** Anything thrown that is not an [AIAnalysisError]: an [Error] instance
    with its message, or some other value. *)
Inductive Foreign : Type :=
| ForeignError (message : string)
| ForeignValue (v : JsVal).

Inductive Cause : Type :=
| NoCause
| CauseFunctions (e : FunctionsError.t)
| CauseData (d : JsVal)
| CauseForeign (f : Foreign).

(** [message] is the string the [Error] keeps: the constructor hands its
    argument to [super(message)] (line 33). *)
Module AIAnalysisError.
Record t : Type := { message : string; code : option string; originalError : Cause }.
End AIAnalysisError.

Inductive Thrown : Type :=
| AI (e : AIAnalysisError.t)
| Other (f : Foreign).

Definition TypeError (m : string) : Thrown := Other (ForeignError m).

(** What [await supabase.functions.invoke(...)] does. *)
Inductive InvokeOutcome : Type :=
| Resolved (data : JsVal) (error : option FunctionsError.t)
| Rejected (f : Foreign).

Inductive Call : Type :=
| Invoke (fn : string) (body : Request.t).

(** The ambient configuration and the remote endpoint.
    [isSupabaseConfigured] is the value the predicate imported from
    [../lib/supabase] returns. *)
Record Env : Type := {
  isSupabaseConfigured : bool;
  EXPO_PUBLIC_SUPABASE_URL : option string;
  EXPO_PUBLIC_SUPABASE_ANON_KEY : option string;
  functions_invoke : string -> Request.t -> InvokeOutcome
}.

Definition Comp := M Call Thrown.

(** [o || d] for an optional string [o]. *)
Definition opt_or_str (o : option string) (d : string) : string :=
  match o with Some s => str_or s d | None => d end.

(** [v.k]: reading a property of [undefined] or [null] throws. *)
Definition get (v : JsVal) (k : string) : Comp JsVal :=
  match v with
  | JUndefined | JNull => throw (TypeError "Cannot read properties of undefined")
  | _ => ret (prop v k)
  end.

(** [v.toLowerCase()] *)
Definition call_toLowerCase (v : JsVal) : Comp string :=
  match v with
  | JStr s => ret (toLowerCase s)
  | _ => throw (TypeError "toLowerCase is not a function")
  end.

(** [v.getTime()] *)
Definition call_getTime (v : JsVal) : Comp number :=
  match v with
  | JDate tv => ret tv
  | _ => throw (TypeError "getTime is not a function")
  end.

Definition text (t : BodyText) : Comp string :=
  match t with
  | TextOk s => ret s
  | TextFails => throw (Other (ForeignError "body read failed"))
  end.

(** *** The platform *)

Section Platform.

(** [JSON.parse]: the value, or [None] for a [SyntaxError]. *)
Variable JSON_parse : string -> option JsVal.
(** The time value of [new Date(s)]; [NaN] for an invalid date. *)
Variable Date_parse : string -> number.
(** The time value of [new Date()]. *)
Variable now : Z.
(** [String(v)] for a value [v] that is not a string. *)
Variable ToString : JsVal -> string.

(** The message an [Error] keeps of the value handed to its constructor:
    a string as it is, any other value converted to a string. *)
Definition messageOf (v : JsVal) : string :=
  match v with
  | JStr s => s
  | _ => ToString v
  end.

Definition parse (s : string) : Comp JsVal :=
  match JSON_parse s with
  | Some v => ret v
  | None => throw (Other (ForeignError "JSON Parse error"))
  end.

(** *** [calculateShelfLifeDays] (lines 373-392) *)

Definition calculateShelfLifeDays (expiryDate : JsVal) : Comp number :=
  if negb (truthy expiryDate) then ret (Int 7)
  else
    try_catch
      (let expiry :=
         match expiryDate with
         | JStr s => JDate (Date_parse s)
         | _ => expiryDate
         end in
       let now' := JDate (Int now) in
       expiryTime <- call_getTime expiry ;;
       nowTime <- call_getTime now' ;;
       let diffTime := sub expiryTime nowTime in
       let diffDays := ceil_div diffTime msPerDay in
       ret diffDays)
      (fun _ => ret (Int 7)).

(** *** Reading the body of a transport error (lines 131-176) *)

(** [error.context?._bodyBlob] *)
Definition context_bodyBlob (error : FunctionsError.t) : option BodyText :=
  match FunctionsError.context error with
  | Some c => Context._bodyBlob c
  | None => None
  end.

(** [error.context.bodyUsed], read only where the context exists. *)
Definition context_bodyUsed (error : FunctionsError.t) : bool :=
  match FunctionsError.context error with
  | Some c => Context.bodyUsed c
  | None => false
  end.

(** [error.context?._bodyInit], kept when its [_data] is truthy. *)
Definition context_bodyInit_data (error : FunctionsError.t) : option BodyInit :=
  match FunctionsError.context error with
  | Some c =>
      match Context._bodyInit c with
      | Some i => if _data i then Some i else None
      | None => None
      end
  | None => None
  end.

(** [error.context?.body], kept when it is truthy. *)
Definition context_body (error : FunctionsError.t) : option ContextBody :=
  match FunctionsError.context error with
  | Some c =>
      match Context.body c with
      | Some (BodyString s) => if nonempty s then Some (BodyString s) else None
      | b => b
      end
  | None => None
  end.

Definition not_set (errorBody : option string) : bool := negb (opt_truthy errorBody).

Definition extractErrorBody (error : FunctionsError.t) : Comp (option string) :=
  let errorBody : option string := None in
  try_catch
    ((* Method 1: _bodyBlob *)
     errorBody <-
       match context_bodyBlob error with
       | Some blob =>
           if negb (context_bodyUsed error) then
             try_catch (bodyText <- text blob ;; ret (Some bodyText))
                       (fun _ => ret errorBody)
           else ret errorBody
       | None => ret errorBody
       end ;;
     (* Method 2: _bodyInit *)
     errorBody <-
       match context_bodyInit_data error with
       | Some init =>
           if not_set errorBody then
             try_catch (bodyText <- text (responseText init) ;; ret (Some bodyText))
                       (fun _ => ret errorBody)
           else ret errorBody
       | None => ret errorBody
       end ;;
     (* Method 3: the message of the error *)
     let errorBody :=
       match FunctionsError.message error with
       | Some m =>
           if not_set errorBody && nonempty m
              && negb (String.eqb m "Edge Function returned a non-2xx status code")
           then Some m else errorBody
       | None => errorBody
       end in
     (* Method 4: context.body *)
     errorBody <-
       match context_body error with
       | Some b =>
           if not_set errorBody then
             try_catch
               match b with
               | BodyString s => ret (Some s)
               | BodyBlob blob => (bodyText <- text blob ;; ret (Some bodyText))
               | BodyOther => ret errorBody
               end
               (fun _ => ret errorBody)
           else ret errorBody
       | None => ret errorBody
       end ;;
     ret errorBody)
    (fun _ => ret errorBody).

(** [error.context?.status || error.status] *)
Definition errorStatusOf (error : FunctionsError.t) : option Z :=
  let fallback := FunctionsError.status error in
  match FunctionsError.context error with
  | Some c =>
      match Context.status c with
      | Some z => if z =? 0 then fallback else Some z
      | None => fallback
      end
  | None => fallback
  end.

(** [errorStatus === n] *)
Definition status_is (errorStatus : option Z) (n : Z) : bool :=
  match errorStatus with Some z => z =? n | None => false end.

(** *** Classifying a transport error (lines 181-277) *)

(** The table of lines 210-228, on the lower-cased error text. *)
Definition classifyErrorMsg (errorMsg : string) : string * string :=
  if includes errorMsg "openai api key" || includes errorMsg "api key is not configured" then
    ("AI service is not properly configured. Please contact support.", "AI_NOT_CONFIGURED")
  else if includes errorMsg "invalid" || includes errorMsg "expired" then
    ("AI service authentication failed. Please try again later.", "AI_AUTH_FAILED")
  else if includes errorMsg "rate limit" || includes errorMsg "quota" then
    ("AI service is temporarily busy. Please try again in a moment.", "AI_RATE_LIMIT")
  else if includes errorMsg "temporarily unavailable" || includes errorMsg "service" then
    ("AI service is temporarily unavailable. Please try again later.", "AI_SERVICE_UNAVAILABLE")
  else if includes errorMsg "failed to analyze" then
    ("Could not identify this product automatically. Please enter the details manually.",
     "AI_ANALYSIS_FAILED")
  else
    ("Unable to analyze product. Please enter details manually.", "AI_ERROR").

(** How the block of lines 185-236 ends: with a [return] out of
    [analyzeProduct], or by falling through with the two variables. *)
Inductive Flow : Type :=
| Return (result : ProductAnalysisResult)
| Continue (userFriendlyMessage errorCode : string).

Definition interpretErrorBody (errorBody userFriendlyMessage errorCode : string) : Comp Flow :=
  try_catch
    (errorJson <- parse errorBody ;;
     flag <- get errorJson "manualEntryRequired" ;;
     if is_true flag then
       productName <- get errorJson "productName" ;;
       category' <- get errorJson "category" ;;
       expiryDate' <- get errorJson "expiryDate" ;;
       days <- calculateShelfLifeDays expiryDate' ;;
       confidenceScore' <- get errorJson "confidenceScore" ;;
       ret (Return {| name := or_else productName (JStr "Unknown Product");
                      category := or_else category' (JStr "General");
                      shelfLifeDays := days;
                      confidenceScore := or_else confidenceScore' (JNum 0);
                      expiryDate := expiryDate';
                      manualEntryRequired := JBool true |})
     else
       error' <- get errorJson "error" ;;
       if truthy error' then
         errorMsg <- call_toLowerCase error' ;;
         ret (Continue (fst (classifyErrorMsg errorMsg)) (snd (classifyErrorMsg errorMsg)))
       else ret (Continue userFriendlyMessage errorCode))
    (fun _ =>
       if (String.length errorBody <? 200)%nat
       then ret (Continue errorBody errorCode)
       else ret (Continue userFriendlyMessage errorCode)).

(** Lines 238-251. *)
Definition applyStatus (errorStatus : option Z) (errorBody : option string)
  (userFriendlyMessage errorCode : string) : string * string :=
  if status_is errorStatus 401 then
    ("Authentication failed. Please restart the app.", "AUTH_FAILED")
  else if status_is errorStatus 500 && not_set errorBody then
    ("Server error occurred. Please try again or enter details manually.", "SERVER_ERROR")
  else if status_is errorStatus 400 then
    ("Invalid request. Please check your input and try again.", "INVALID_REQUEST")
  else if status_is errorStatus 503 || status_is errorStatus 502 then
    ("Service temporarily unavailable. Please try again later.", "SERVICE_UNAVAILABLE")
  else (userFriendlyMessage, errorCode).

(** Lines 263-271. *)
Definition finalMessage (error : FunctionsError.t) (userFriendlyMessage : string) : string :=
  if negb (nonempty userFriendlyMessage)
     || String.eqb userFriendlyMessage "Failed to analyze product" then
    match FunctionsError.message error with
    | Some m =>
        if includes m "non-2xx" then
          "Unable to analyze product. Please enter details manually."
        else if nonempty m && (String.length m <? 100)%nat then m
        else "Could not identify this product automatically. Please enter the details manually."
    | None =>
        "Could not identify this product automatically. Please enter the details manually."
    end
  else userFriendlyMessage.

(** The branch [if (error) { ... }] of lines 130-278. *)
Definition onInvokeError (error : FunctionsError.t) : Comp ProductAnalysisResult :=
  let errorStatus := errorStatusOf error in
  errorBody <- extractErrorBody error ;;
  let userFriendlyMessage := "Failed to analyze product" in
  let errorCode := "UNKNOWN_ERROR" in
  flow <-
    match errorBody with
    | Some b =>
        if nonempty b then interpretErrorBody b userFriendlyMessage errorCode
        else ret (Continue userFriendlyMessage errorCode)
    | None => ret (Continue userFriendlyMessage errorCode)
    end ;;
  match flow with
  | Return result => ret result
  | Continue userFriendlyMessage errorCode =>
      let userFriendlyMessage' :=
        fst (applyStatus errorStatus errorBody userFriendlyMessage errorCode) in
      let errorCode' :=
        snd (applyStatus errorStatus errorBody userFriendlyMessage errorCode) in
      throw (AI {| AIAnalysisError.message := finalMessage error userFriendlyMessage';
                   AIAnalysisError.code := Some (str_or errorCode' "EDGE_FUNCTION_ERROR");
                   AIAnalysisError.originalError := CauseFunctions error |})
  end.

(** *** [analyzeProduct] (lines 50-339) *)

Definition NOT_CONFIGURED_message : string :=
  "Supabase is not configured. Please set EXPO_PUBLIC_SUPABASE_URL and EXPO_PUBLIC_SUPABASE_ANON_KEY environment variables.".

(** The texts of the two multi-line configuration messages (lines 90-94 and
    102-111) are cut after their first sentence. *)
Definition PLACEHOLDER_CREDENTIALS_message : string :=
  "Supabase credentials are not properly configured. The app is using placeholder credentials which will cause 401 errors.".

Definition WRONG_KEY_TYPE_message : string := "WRONG KEY TYPE DETECTED!".

Definition mkError (message : string) (code : string) (cause : Cause) : Thrown :=
  AI {| AIAnalysisError.message := message;
        AIAnalysisError.code := Some code;
        AIAnalysisError.originalError := cause |}.

(** [await supabase.functions.invoke(fn, { body })] *)
Definition invoke (env : Env) (fn : string) (body : Request.t)
  : Comp (JsVal * option FunctionsError.t) :=
  emit (Invoke fn body) ;;;
  match functions_invoke env fn body with
  | Resolved data error => ret (data, error)
  | Rejected f => throw (Other f)
  end.

(** Lines 80-85. *)
Definition supabaseUrl (env : Env) : string := opt_or_str (EXPO_PUBLIC_SUPABASE_URL env) "".
Definition supabaseKey (env : Env) : string := opt_or_str (EXPO_PUBLIC_SUPABASE_ANON_KEY env) "".

Definition urlIsPlaceholder (env : Env) : bool :=
  includes (supabaseUrl env) "placeholder" || includes (supabaseUrl env) "your-project"
  || (String.length (supabaseUrl env) =? 0)%nat.

Definition keyIsPlaceholder (env : Env) : bool :=
  includes (supabaseKey env) "placeholder" || includes (supabaseKey env) "your-anon"
  || (String.length (supabaseKey env) =? 0)%nat.

Definition keyIsPublishable (env : Env) : bool := startsWith (supabaseKey env) "sb_publishable_".
Definition keyIsJWT (env : Env) : bool := startsWith (supabaseKey env) "eyJ".

(** What follows the [await] of the invocation (lines 130-324). *)
Definition onResponse (data : JsVal) (error : option FunctionsError.t)
  : Comp ProductAnalysisResult :=
  match error with
  | Some error => onInvokeError error
  | None =>
      if negb (truthy data) then
        throw (mkError "No data returned from AI analysis" "NO_RESPONSE" NoCause)
      else
        data_error <- get data "error" ;;
        if truthy data_error then
          throw (mkError (messageOf (or_else data_error (JStr "Error from AI service")))
                         "AI_SERVICE_ERROR" (CauseData data))
        else
          productName <- get data "productName" ;;
          name' <- get data "name" ;;
          category' <- get data "category" ;;
          expiryDate' <- get data "expiryDate" ;;
          days <- calculateShelfLifeDays expiryDate' ;;
          confidenceScore' <- get data "confidenceScore" ;;
          flag <- get data "manualEntryRequired" ;;
          let result :=
            {| name := or_else productName (or_else name' (JStr "Unknown Product"));
               category := or_else category' (JStr "General");
               shelfLifeDays := days;
               confidenceScore := or_else confidenceScore' (JNum 0);
               expiryDate := expiryDate';
               manualEntryRequired := or_else flag (JBool false) |} in
          if truthy flag then ret result else ret result
  end.

(** The body sent to the endpoint (lines 124-127). *)
Definition requestBody (options : Options.t) (codeToAnalyze : option string) : Request.t :=
  {| Request.code := opt_or_str codeToAnalyze "";
     Request.imageUri := Options.imageUri options |}.

(** The block of the outer [try] (lines 71-324). *)
Definition analyzeProduct_try (env : Env) (options : Options.t)
  (codeToAnalyze : option string) : Comp ProductAnalysisResult :=
  if negb (isSupabaseConfigured env) then
    throw (mkError NOT_CONFIGURED_message "NOT_CONFIGURED" NoCause)
  else if urlIsPlaceholder env || keyIsPlaceholder env then
    throw (mkError PLACEHOLDER_CREDENTIALS_message "PLACEHOLDER_CREDENTIALS" NoCause)
  else if keyIsPublishable env && negb (keyIsJWT env) then
    throw (mkError WRONG_KEY_TYPE_message "WRONG_KEY_TYPE" NoCause)
  else
    response <- invoke env "analyze-product" (requestBody options codeToAnalyze) ;;
    onResponse (fst response) (snd response).

(** The outer [catch] (lines 325-338). *)
Definition analyzeProduct_catch (error : Thrown) : Comp ProductAnalysisResult :=
  match error with
  | AI e => throw (AI e)
  | Other f =>
      throw (mkError
               match f with
               | ForeignError m => m
               | ForeignValue _ => "Unknown error occurred during analysis"
               end
               "UNKNOWN_ERROR" (CauseForeign f))
  end.

Definition analyzeProduct (env : Env) (options : Options.t) : Comp ProductAnalysisResult :=
  let codeToAnalyze := opt_or (Options.barcode options) (Options.code options) in
  if negb (opt_truthy codeToAnalyze) && negb (opt_truthy (Options.imageUri options)) then
    throw (mkError "Either barcode/code or imageUri must be provided for analysis"
                   "MISSING_INPUT" NoCause)
  else
    try_catch (analyzeProduct_try env options codeToAnalyze) analyzeProduct_catch.

Definition analyzeProductFromBarcode (env : Env) (barcode : string) : Comp ProductAnalysisResult :=
  analyzeProduct env {| Options.barcode := Some barcode; Options.imageUri := None; Options.code := None |}.

Definition analyzeProductFromImage (env : Env) (imageUri : string) : Comp ProductAnalysisResult :=
  analyzeProduct env {| Options.barcode := None; Options.imageUri := Some imageUri; Options.code := None |}.

End Platform.

Definition isAIAnalysisConfigured (env : Env) : bool := isSupabaseConfigured env.

(** [options.barcode || options.code] (line 54). *)
Definition codeToAnalyze (options : Options.t) : option string :=
  opt_or (Options.barcode options) (Options.code options).

(** The guards of lines 56, 72, 88 and 100 all let the run through to the
    invocation of line 123. *)
Definition reachesEndpoint (env : Env) (options : Options.t) : bool :=
  negb (negb (opt_truthy (codeToAnalyze options)) && negb (opt_truthy (Options.imageUri options)))
  && isSupabaseConfigured env
  && negb (urlIsPlaceholder env || keyIsPlaceholder env)
  && negb (keyIsPublishable env && negb (keyIsJWT env)).

(** The error codes the specification lists as surfaced to callers. *)
Definition vocabulary : list string :=
  [ "NOT_CONFIGURED"; "PLACEHOLDER_CREDENTIALS"; "WRONG_KEY_TYPE"; "MISSING_INPUT";
    "AI_NOT_CONFIGURED"; "AI_AUTH_FAILED"; "AI_RATE_LIMIT"; "AI_SERVICE_UNAVAILABLE";
    "AI_ANALYSIS_FAILED"; "AI_ERROR"; "AI_SERVICE_ERROR"; "AUTH_FAILED"; "SERVER_ERROR";
    "INVALID_REQUEST"; "SERVICE_UNAVAILABLE"; "NO_RESPONSE"; "UNKNOWN_ERROR" ].

Definition in_vocabulary (c : string) : bool := existsb (String.eqb c) vocabulary.

(** A thrown value that is an [AIAnalysisError] with a code of the vocabulary. *)
Definition classified (x : Thrown) : bool :=
  match x with
  | AI e =>
      match AIAnalysisError.code e with
      | Some c => in_vocabulary c
      | None => false
      end
  | Other _ => false
  end.

(** The block of lines 185-236 leaves a code of the vocabulary in [errorCode]. *)
Definition flow_classified (flow : Flow) : Prop :=
  match flow with
  | Return _ => True
  | Continue _ c => in_vocabulary c = true
  end.

(** The code of the error a run ends with, when it ends with one. *)
Definition thrown_code {A} (m : Comp A) : option string :=
  match outcome m with
  | inl (AI e) => AIAnalysisError.code e
  | _ => None
  end.

End AiAnalysis.

(** ** The manual-entry screen: [handleSubmit] *)

Module ManualEntryScreen.
Import Js.
Local Open Scope comp_scope.

(** The callbacks [onBack] and [onViewInventory] only run from the buttons
    of an alert, after [handleSubmit] has ended. *)
Record Props : Type := { initialBarcode : option string }.

(** The [useState] cells of the component. *)
Record FormState : Type := {
  productName : string;
  category : string;
  barcode : string;
  expiryDate : string;
  saving : bool
}.

(** The record handed to [addInventoryItem]. *)
Module Item.
Record t : Type := {
  barcode : string;
  product_name : string;
  category : string;
  expiry_date : string;
  ai_confidence : Q
}.
End Item.

Inductive Effect : Type :=
| Alert (title message : string) (buttons : list string)
| AddInventoryItem (item : Item.t)
| SetProductName (s : string)
| SetCategory (s : string)
| SetBarcode (s : string)
| SetExpiryDate (s : string)
| SetSaving (b : bool).

(** What a rejected promise throws at its [await]. *)
Inductive Rejection : Type :=
| Error (message : string).

Definition Handler := M Effect Rejection.

(** Lines 53-61. *)
Definition statusOf (daysLeft : number) : string :=
  if lt daysLeft 0 then "EXPIRED"
  else if strict_eq daysLeft 0 then "EXPIRES TODAY"
  else if strict_eq daysLeft 1 then "Expires tomorrow"
  else "Expires in " ++ Number_toString daysLeft ++ " days".

(** The variables the first [try] block assigns (line 46). *)
Record Saved : Type := {
  savedName : string;
  savedCategory : string;
  savedExpiryDate : string;
  daysLeft : number;
  status : string
}.

Section Platform.

(** The time value of [new Date(s)].  The constructor does not throw on a
    text it cannot parse: it gives an Invalid Date, whose [getTime()] is
    [NaN]. *)
Variable Date_parse : string -> number.
(** The time value of [new Date()]. *)
Variable now : Z.
(** Whether the promise of [addInventoryItem] resolves ([true]) or rejects. *)
Variable store_accepts : Item.t -> bool.

Definition addInventoryItem (item : Item.t) : Handler unit :=
  emit (AddInventoryItem item) ;;;
  if store_accepts item then ret tt else throw (Error "addInventoryItem failed").

Definition handleSubmit (props : Props) (st : FormState) : Handler unit :=
  (* Validation *)
  if negb (nonempty (trim (productName st))) || negb (nonempty (trim (expiryDate st))) then
    emit (Alert "Missing Information"
                "Please enter at least the product name and expiry date." ["OK"])
  else
    computed <-
      try_catch
        (let expiryDateObj := Date_parse (expiryDate st) in
         let now' := Int now in
         let diffTime := sub expiryDateObj now' in
         let daysLeft := ceil_div diffTime msPerDay in
         let status := statusOf daysLeft in
         ret (Some {| savedName := trim (productName st);
                      savedCategory := str_or (trim (category st)) "General";
                      savedExpiryDate := expiryDate st;
                      daysLeft := daysLeft;
                      status := status |}))
        (fun _ =>
           emit (Alert "Invalid Date"
                       "Please enter a valid expiry date (YYYY-MM-DD format)." ["OK"]) ;;;
           ret None) ;;
    match computed with
    | None => ret tt
    | Some saved =>
        emit (SetSaving true) ;;;
        try_finally
          (try_catch
             (addInventoryItem
                {| Item.barcode := str_or (trim (barcode st)) "Manual Entry";
                   Item.product_name := savedName saved;
                   Item.category := savedCategory saved;
                   Item.expiry_date := savedExpiryDate saved;
                   Item.ai_confidence := 1%Q |} ;;;
              (* Clear form *)
              emit (SetProductName "") ;;;
              emit (SetCategory "") ;;;
              emit (SetBarcode (match initialBarcode props with
                                | Some b => str_or b ""
                                | None => ""
                                end)) ;;;
              emit (SetExpiryDate "") ;;;
              emit (Alert "Success" "Product saved to inventory!"
                          ["Add Another"; "View Inventory"; "Done"]))
             (fun _ =>
                emit (Alert "Error" "Failed to save product to inventory. Please try again."
                            ["Retry"; "Cancel"])))
          (emit (SetSaving false))
    end.

End Platform.

(** The record lines 81-87 build from the fields of a form. *)
Definition itemOf (st : FormState) : Item.t :=
  {| Item.barcode := str_or (trim (barcode st)) "Manual Entry";
     Item.product_name := trim (productName st);
     Item.category := str_or (trim (category st)) "General";
     Item.expiry_date := expiryDate st;
     Item.ai_confidence := 1%Q |}.

(** The state of the form once the queued updates are applied. *)
Definition apply (st : FormState) (e : Effect) : FormState :=
  match e with
  | SetProductName s =>
      {| productName := s; category := category st; barcode := barcode st;
         expiryDate := expiryDate st; saving := saving st |}
  | SetCategory s =>
      {| productName := productName st; category := s; barcode := barcode st;
         expiryDate := expiryDate st; saving := saving st |}
  | SetBarcode s =>
      {| productName := productName st; category := category st; barcode := s;
         expiryDate := expiryDate st; saving := saving st |}
  | SetExpiryDate s =>
      {| productName := productName st; category := category st; barcode := barcode st;
         expiryDate := s; saving := saving st |}
  | SetSaving b =>
      {| productName := productName st; category := category st; barcode := barcode st;
         expiryDate := expiryDate st; saving := b |}
  | Alert _ _ _ | AddInventoryItem _ => st
  end.

Definition after (st : FormState) (effects : list Effect) : FormState :=
  fold_left apply effects st.

(** The records written to the inventory store, in order. *)
Fixpoint writes (effects : list Effect) : list Item.t :=
  match effects with
  | [] => []
  | AddInventoryItem item :: rest => item :: writes rest
  | _ :: rest => writes rest
  end.

(** The titles of the alerts shown, in order. *)
Fixpoint alerts (effects : list Effect) : list string :=
  match effects with
  | [] => []
  | Alert title _ _ :: rest => title :: alerts rest
  | _ :: rest => alerts rest
  end.

End ManualEntryScreen.

(** ** Sample platforms, requests and responses *)

Module Samples.
Import Js.

Definition dq : string := String "034"%char EmptyString.
Definition quoted (s : string) : string := dq ++ s ++ dq.

(** [{"error":"rate limit exceeded"}] *)
Definition body_rate_limit : string :=
  "{" ++ quoted "error" ++ ":" ++ quoted "rate limit exceeded" ++ "}".

(** [{"error":"invalid rate limit header"}] *)
Definition body_invalid_rate_limit : string :=
  "{" ++ quoted "error" ++ ":" ++ quoted "invalid rate limit header" ++ "}".

(** [{"manualEntryRequired":true,"productName":"","confidenceScore":0.4}] *)
Definition body_manual_blank_name : string :=
  "{" ++ quoted "manualEntryRequired" ++ ":true," ++ quoted "productName" ++ ":" ++ quoted ""
      ++ "," ++ quoted "confidenceScore" ++ ":0.4}".

(** [{"manualEntryRequired":true,"productName":"Oat Milk","expiryDate":"2024-12-31"}] *)
Definition body_manual : string :=
  "{" ++ quoted "manualEntryRequired" ++ ":true," ++ quoted "productName" ++ ":"
      ++ quoted "Oat Milk" ++ "," ++ quoted "expiryDate" ++ ":" ++ quoted "2024-12-31" ++ "}".

(** [JSON.parse] on the four texts above; a [SyntaxError] elsewhere. *)
Definition JSON_parse (s : string) : option JsVal :=
  if String.eqb s body_rate_limit then
    Some (JObj [("error", JStr "rate limit exceeded")])
  else if String.eqb s body_invalid_rate_limit then
    Some (JObj [("error", JStr "invalid rate limit header")])
  else if String.eqb s body_manual_blank_name then
    Some (JObj [("manualEntryRequired", JBool true); ("productName", JStr "");
                ("confidenceScore", JNum (4 # 10))])
  else if String.eqb s body_manual then
    Some (JObj [("manualEntryRequired", JBool true); ("productName", JStr "Oat Milk");
                ("expiryDate", JStr "2024-12-31")])
  else None.

(** [new Date("2024-12-31")] is midnight UTC of that day; the other strings
    used below are invalid dates. *)
Definition Date_parse (s : string) : number :=
  if String.eqb s "2024-12-31" then Int 1735603200000 else NaN.

(** 2024-12-24T00:26:40Z *)
Definition now : Z := 1735000000000.

(** 2024-12-27T11:46:40Z *)
Definition later : Z := 1735300000000.

(** [String(v)] on [undefined], [null], the booleans, the integers and the
    plain objects; the other values are not used as messages below. *)
Definition ToString (v : JsVal) : string :=
  match v with
  | JUndefined => "undefined"
  | JNull => "null"
  | JBool true => "true"
  | JBool false => "false"
  | JNum (Qmake n 1) => NilZero.string_of_int (Z.to_int n)
  | JObj _ => "[object Object]"
  | JStr s => s
  | _ => ""
  end.

(** A non-2xx answer of the Edge Function, as the functions client reports
    it: the response is the [context] of the error and its body is still
    unread. *)
Definition http_error (status : Z) (bodyText : string) : AiAnalysis.FunctionsError.t :=
  {| AiAnalysis.FunctionsError.context :=
       Some {| AiAnalysis.Context.status := Some status;
               AiAnalysis.Context._bodyBlob := Some (AiAnalysis.TextOk bodyText);
               AiAnalysis.Context.bodyUsed := false;
               AiAnalysis.Context._bodyInit := None;
               AiAnalysis.Context.body := None |};
     AiAnalysis.FunctionsError.status := None;
     AiAnalysis.FunctionsError.message := Some "Edge Function returned a non-2xx status code" |}.

Definition jwt_key : string := "eyJhbGciOiJIUzI1NiJ9.e30.abc".
Definition publishable_key : string := "sb_publishable_abc123".

(** A configured project with the given key, whose endpoint answers every
    request the same way. *)
Definition env_with (key : string) (answer : AiAnalysis.InvokeOutcome) : AiAnalysis.Env :=
  {| AiAnalysis.isSupabaseConfigured := true;
     AiAnalysis.EXPO_PUBLIC_SUPABASE_URL := Some "https://abcdefgh.supabase.co";
     AiAnalysis.EXPO_PUBLIC_SUPABASE_ANON_KEY := Some key;
     AiAnalysis.functions_invoke := fun _ _ => answer |}.

Definition scan (barcode : string) : AiAnalysis.Options.t :=
  {| AiAnalysis.Options.barcode := Some barcode;
     AiAnalysis.Options.imageUri := None;
     AiAnalysis.Options.code := None |}.

Definition no_input : AiAnalysis.Options.t :=
  {| AiAnalysis.Options.barcode := None;
     AiAnalysis.Options.imageUri := None;
     AiAnalysis.Options.code := None |}.

Definition barcode_and_code : AiAnalysis.Options.t :=
  {| AiAnalysis.Options.barcode := Some "4006381333931";
     AiAnalysis.Options.imageUri := None;
     AiAnalysis.Options.code := Some "LOT-42" |}.

(** A form with a name and with an expiry date that is no date. *)
Definition form_soon : ManualEntryScreen.FormState :=
  {| ManualEntryScreen.productName := "Milk";
     ManualEntryScreen.category := "";
     ManualEntryScreen.barcode := "";
     ManualEntryScreen.expiryDate := "soon";
     ManualEntryScreen.saving := false |}.

Definition no_props : ManualEntryScreen.Props :=
  {| ManualEntryScreen.initialBarcode := None |}.

(** A store that takes every record. *)
Definition store_ok (item : ManualEntryScreen.Item.t) : bool := true.

(** [{productName: "Organic Milk", category: "Dairy", expiryDate: "2024-12-31",
     confidenceScore: 0.85}] *)
Definition data_milk : JsVal :=
  JObj [("productName", JStr "Organic Milk"); ("category", JStr "Dairy");
        ("expiryDate", JStr "2024-12-31"); ("confidenceScore", JNum (85 # 100))].

(** [{manualEntryRequired: true, expiryDate: "2024-12-31"}] *)
Definition data_manual : JsVal :=
  JObj [("manualEntryRequired", JBool true); ("expiryDate", JStr "2024-12-31")].

(** A project the imported predicate reports as not configured. *)
Definition env_unconfigured : AiAnalysis.Env :=
  {| AiAnalysis.isSupabaseConfigured := false;
     AiAnalysis.EXPO_PUBLIC_SUPABASE_URL := None;
     AiAnalysis.EXPO_PUBLIC_SUPABASE_ANON_KEY := None;
     AiAnalysis.functions_invoke := fun _ _ => AiAnalysis.Resolved JNull None |}.

(** The credentials of the template [.env], with a publishable key. *)
Definition env_template : AiAnalysis.Env :=
  {| AiAnalysis.isSupabaseConfigured := true;
     AiAnalysis.EXPO_PUBLIC_SUPABASE_URL := Some "https://your-project-id.supabase.co";
     AiAnalysis.EXPO_PUBLIC_SUPABASE_ANON_KEY := Some "sb_publishable_your-anon-key";
     AiAnalysis.functions_invoke := fun _ _ => AiAnalysis.Resolved JNull None |}.

(** A status-500 error with nothing to read: no response attached, and the
    generic message of the functions client. *)
Definition error_500_bare : AiAnalysis.FunctionsError.t :=
  {| AiAnalysis.FunctionsError.context := None;
     AiAnalysis.FunctionsError.status := Some 500;
     AiAnalysis.FunctionsError.message := Some "Edge Function returned a non-2xx status code" |}.

(** A relay error: both body reads reject, and the message says why. *)
Definition error_unreadable : AiAnalysis.FunctionsError.t :=
  {| AiAnalysis.FunctionsError.context :=
       Some {| AiAnalysis.Context.status := Some 504;
               AiAnalysis.Context._bodyBlob := Some AiAnalysis.TextFails;
               AiAnalysis.Context.bodyUsed := false;
               AiAnalysis.Context._bodyInit :=
                 Some {| AiAnalysis._data := true;
                         AiAnalysis.responseText := AiAnalysis.TextFails |};
               AiAnalysis.Context.body := None |};
     AiAnalysis.FunctionsError.status := None;
     AiAnalysis.FunctionsError.message := Some "Relay Error invoking the Edge Function" |}.


(** [{productName: "Milk", expiryDate: "soon"}] *)
Definition data_soon : JsVal :=
  JObj [("productName", JStr "Milk"); ("expiryDate", JStr "soon")].

(** A form that is being saved and has no name. *)
Definition form_blank_saving : ManualEntryScreen.FormState :=
  {| ManualEntryScreen.productName := "   ";
     ManualEntryScreen.category := "Dairy";
     ManualEntryScreen.barcode := "";
     ManualEntryScreen.expiryDate := "2024-12-31";
     ManualEntryScreen.saving := true |}.

(** A complete form. *)
Definition form_milk : ManualEntryScreen.FormState :=
  {| ManualEntryScreen.productName := " Oat Milk ";
     ManualEntryScreen.category := "";
     ManualEntryScreen.barcode := "";
     ManualEntryScreen.expiryDate := "2024-12-31";
     ManualEntryScreen.saving := false |}.

Definition props_scanned : ManualEntryScreen.Props :=
  {| ManualEntryScreen.initialBarcode := Some "4006381333931" |}.

(** A store that refuses every record. *)
Definition store_down (item : ManualEntryScreen.Item.t) : bool := false.

End Samples.

(** * Properties *)

(** ** Laws of the computations *)

Module CompLaws.
Import Js.

Section Laws.
Context {E X : Type}.

Lemma bind_ret_l {A B} (a : A) (k : A -> M E X B) : bind (ret a) k = k a.
Proof. unfold bind, ret, trace, outcome; simpl. now destruct (k a). Qed.

Lemma bind_throw_l {A B} (x : X) (k : A -> M E X B) : bind (throw x) k = throw x.
Proof. reflexivity. Qed.

Lemma try_catch_ret {A} (a : A) (h : X -> M E X A) : try_catch (ret a) h = ret a.
Proof. reflexivity. Qed.

Lemma try_catch_throw {A} (x : X) (h : X -> M E X A) : try_catch (throw x) h = h x.
Proof. unfold try_catch, throw, trace, outcome; simpl. now destruct (h x). Qed.

Lemma bind_silent {A B} (m : M E X A) (k : A -> M E X B) :
  trace m = [] -> (forall a, trace (k a) = []) -> trace (bind m k) = [].
Proof.
  intros Hm Hk. destruct m as [t [x | a]]; unfold bind, trace in *; simpl in *.
  - exact Hm.
  - subst t. apply Hk.
Qed.

Lemma try_catch_silent {A} (m : M E X A) (h : X -> M E X A) :
  trace m = [] -> (forall x, trace (h x) = []) -> trace (try_catch m h) = [].
Proof.
  intros Hm Hh. destruct m as [t [x | a]]; unfold try_catch, trace in *; simpl in *.
  - subst t. apply Hh.
  - exact Hm.
Qed.

(** A computation that neither calls out nor throws is a [ret]. *)
Lemma silent_value {A} (m : M E X A) (a : A) :
  trace m = [] -> outcome m = inr a -> m = ret a.
Proof. destruct m as [t r]. unfold trace, outcome, ret. simpl. now intros -> ->. Qed.

Lemma silent_throw {A} (m : M E X A) (x : X) :
  trace m = [] -> outcome m = inl x -> m = throw x.
Proof. destruct m as [t r]. unfold trace, outcome, throw. simpl. now intros -> ->. Qed.

Lemma ensures_ret {A} (P : A -> Prop) (Q : X -> Prop) a : P a -> ensures P Q (ret (E:=E) a).
Proof. exact (fun H => H). Qed.

Lemma ensures_throw {A} (P : A -> Prop) (Q : X -> Prop) x :
  Q x -> ensures P Q (throw (E:=E) (A:=A) x).
Proof. exact (fun H => H). Qed.

Lemma ensures_bind {A B} (P : B -> Prop) (Q : X -> Prop) (m : M E X A) (k : A -> M E X B) :
  ensures (fun a => ensures P Q (k a)) Q m -> ensures P Q (bind m k).
Proof. destruct m as [t [x | a]]; unfold ensures, bind, outcome; simpl; auto. Qed.

Lemma ensures_try_catch {A} (P : A -> Prop) (Q : X -> Prop) (m : M E X A) (h : X -> M E X A) :
  ensures P (fun x => ensures P Q (h x)) m -> ensures P Q (try_catch m h).
Proof. destruct m as [t [x | a]]; unfold ensures, try_catch, outcome; simpl; auto. Qed.

Lemma ensures_weaken {A} (P P' : A -> Prop) (Q Q' : X -> Prop) (m : M E X A) :
  ensures P Q m -> (forall a, P a -> P' a) -> (forall x, Q x -> Q' x) -> ensures P' Q' m.
Proof. destruct m as [t [x | a]]; unfold ensures, outcome; simpl; auto. Qed.

End Laws.
End CompLaws.

(** ** Properties of [src/services/aiAnalysis.ts] *)

Module AiAnalysisProps.
Import Js AiAnalysis CompLaws.
Local Open Scope comp_scope.

Arguments startsWith : simpl never.
Arguments includes : simpl never.
Arguments toLowerCase : simpl never.

Create HintDb silent.

Ltac silent_step :=
  first
    [ reflexivity
    | assumption
    | apply bind_silent; [ | intros ]
    | apply try_catch_silent; [ | intros ]
    | match goal with
      | |- trace (match ?x with _ => _ end) = [] => destruct x
      | |- trace (if ?b then _ else _) = [] => destruct b
      end
    | solve [ auto with silent ] ].

Ltac silent := repeat silent_step.

Section Props.
Variable JSON_parse : string -> option JsVal.
Variable Date_parse : string -> number.
Variable now : Z.
Variable ToString : JsVal -> string.

Local Abbreviation calculateShelfLifeDays := (calculateShelfLifeDays Date_parse now).
Local Abbreviation extractErrorBody := (AiAnalysis.extractErrorBody).
Local Abbreviation interpretErrorBody := (interpretErrorBody JSON_parse Date_parse now).
Local Abbreviation onInvokeError := (onInvokeError JSON_parse Date_parse now).
Local Abbreviation onResponse := (onResponse JSON_parse Date_parse now ToString).
Local Abbreviation analyzeProduct := (analyzeProduct JSON_parse Date_parse now ToString).

(** *** The helpers call nothing *)

Lemma get_silent v k : trace (get v k) = [].
Proof. now destruct v. Qed.

Lemma call_toLowerCase_silent v : trace (call_toLowerCase v) = [].
Proof. now destruct v. Qed.

Lemma call_getTime_silent v : trace (call_getTime v) = [].
Proof. now destruct v. Qed.

Lemma text_silent t : trace (text t) = [].
Proof. now destruct t. Qed.

Lemma parse_silent s : trace (parse JSON_parse s) = [].
Proof. unfold parse. now destruct (JSON_parse s). Qed.

Hint Resolve get_silent call_toLowerCase_silent call_getTime_silent text_silent
  parse_silent : silent.

Lemma calculateShelfLifeDays_silent v : trace (calculateShelfLifeDays v) = [].
Proof. unfold AiAnalysis.calculateShelfLifeDays. silent. Qed.

Lemma extractErrorBody_silent e : trace (extractErrorBody e) = [].
Proof. unfold AiAnalysis.extractErrorBody. silent. Qed.

Hint Resolve calculateShelfLifeDays_silent extractErrorBody_silent : silent.

Lemma interpretErrorBody_silent b m c : trace (interpretErrorBody b m c) = [].
Proof. unfold AiAnalysis.interpretErrorBody. silent. Qed.

Hint Resolve interpretErrorBody_silent : silent.

Lemma onInvokeError_silent e : trace (onInvokeError e) = [].
Proof. unfold AiAnalysis.onInvokeError. silent. Qed.

Hint Resolve onInvokeError_silent : silent.

Lemma onResponse_silent d e : trace (onResponse d e) = [].
Proof. unfold AiAnalysis.onResponse. silent. Qed.

Hint Resolve onResponse_silent : silent.

(** *** The guards before the invocation *)

Lemma analyzeProduct_blocked env options :
  reachesEndpoint env options = false -> trace (analyzeProduct env options) = [].
Proof.
  unfold reachesEndpoint, codeToAnalyze, AiAnalysis.analyzeProduct, analyzeProduct_try.
  intros H.
  destruct (negb (opt_truthy _) && negb (opt_truthy _)); [ reflexivity | ].
  destruct (isSupabaseConfigured env); [ | reflexivity ].
  destruct (urlIsPlaceholder env || keyIsPlaceholder env); [ reflexivity | ].
  destruct (keyIsPublishable env && negb (keyIsJWT env)); [ reflexivity | discriminate ].
Qed.

Lemma analyzeProduct_reaches env options :
  reachesEndpoint env options = true ->
  analyzeProduct env options =
  try_catch
    (response <- invoke env "analyze-product" (requestBody options (codeToAnalyze options)) ;;
     onResponse (fst response) (snd response))
    analyzeProduct_catch.
Proof.
  unfold reachesEndpoint, codeToAnalyze, AiAnalysis.analyzeProduct, analyzeProduct_try.
  intros H.
  destruct (negb (opt_truthy _) && negb (opt_truthy _)); [ discriminate | ].
  destruct (isSupabaseConfigured env); [ | discriminate ].
  destruct (urlIsPlaceholder env || keyIsPlaceholder env); [ discriminate | ].
  destruct (keyIsPublishable env && negb (keyIsJWT env)); [ discriminate | reflexivity ].
Qed.

Lemma analyzeProduct_catch_silent x : trace (analyzeProduct_catch x) = [].
Proof. now destruct x. Qed.

(** Once the guards are passed there is exactly one invocation, and the run
    ends as the code after the [await] does on what the endpoint answered. *)
Lemma analyzeProduct_resolved env options data error :
  reachesEndpoint env options = true ->
  functions_invoke env "analyze-product" (requestBody options (codeToAnalyze options))
    = Resolved data error ->
  trace (analyzeProduct env options)
    = [Invoke "analyze-product" (requestBody options (codeToAnalyze options))]
  /\ outcome (analyzeProduct env options)
    = outcome (try_catch (onResponse data error) analyzeProduct_catch).
Proof.
  intros Hr Hi. rewrite (analyzeProduct_reaches _ _ Hr).
  pose proof (onResponse_silent data error) as Hs.
  unfold invoke. rewrite Hi.
  unfold try_catch, bind, emit, ret, trace, outcome in *; simpl.
  destruct (onResponse data error) as [t [x | r]]; simpl in *; subst t.
  - pose proof (analyzeProduct_catch_silent x) as Hc. unfold trace in Hc.
    rewrite Hc. now split.
  - now split.
Qed.

Lemma analyzeProduct_rejected env options f :
  reachesEndpoint env options = true ->
  functions_invoke env "analyze-product" (requestBody options (codeToAnalyze options))
    = Rejected f ->
  trace (analyzeProduct env options)
    = [Invoke "analyze-product" (requestBody options (codeToAnalyze options))]
  /\ outcome (analyzeProduct env options) = outcome (analyzeProduct_catch (Other f)).
Proof.
  intros Hr Hi. rewrite (analyzeProduct_reaches _ _ Hr).
  unfold invoke. rewrite Hi. now split.
Qed.

(** Whatever the endpoint does, a run records at most the one invocation of
    line 123. *)
Lemma analyzeProduct_trace env options :
  trace (analyzeProduct env options) =
  if reachesEndpoint env options
  then [Invoke "analyze-product" (requestBody options (codeToAnalyze options))]
  else [].
Proof.
  destruct (reachesEndpoint env options) eqn:Hr.
  - destruct (functions_invoke env "analyze-product"
                (requestBody options (codeToAnalyze options))) as [d e | f] eqn:Hi.
    + apply (analyzeProduct_resolved _ _ _ _ Hr Hi).
    + apply (analyzeProduct_rejected _ _ _ Hr Hi).
  - now apply analyzeProduct_blocked.
Qed.

Lemma invoked_reaches env options fn body :
  In (Invoke fn body) (trace (analyzeProduct env options)) ->
  reachesEndpoint env options = true
  /\ fn = "analyze-product"
  /\ body = requestBody options (codeToAnalyze options).
Proof.
  rewrite analyzeProduct_trace. destruct (reachesEndpoint env options); simpl.
  - intros [H | []]. inversion H. auto.
  - intros [].
Qed.

(** *** [calculateShelfLifeDays] *)

Lemma calculateShelfLifeDays_string s :
  s <> "" ->
  calculateShelfLifeDays (JStr s) = ret (ceil_div (sub (Date_parse s) (Int now)) msPerDay).
Proof. destruct s; [ congruence | reflexivity ]. Qed.

Lemma calculateShelfLifeDays_Date tv :
  calculateShelfLifeDays (JDate tv) = ret (ceil_div (sub tv (Int now)) msPerDay).
Proof. reflexivity. Qed.

Lemma calculateShelfLifeDays_returns expiryDate :
  exists n, calculateShelfLifeDays expiryDate = ret n.
Proof.
  unfold AiAnalysis.calculateShelfLifeDays.
  destruct (truthy expiryDate); simpl; [ | eexists; reflexivity ].
  destruct expiryDate; eexists; reflexivity.
Qed.

(** C10. [calculateShelfLifeDays] is total: on every value it can be handed
    (absent, a [Date], a string that parses or not, and anything else a
    payload may hold) it returns a number without throwing and without
    calling out, and on an absent value that number is 7. *)
Theorem calculateShelfLifeDays_total :
  (forall expiryDate, exists n, calculateShelfLifeDays expiryDate = ret n)
  /\ (forall tv, exists n, calculateShelfLifeDays (JDate tv) = ret n)
  /\ (forall s, exists n, calculateShelfLifeDays (JStr s) = ret n)
  /\ calculateShelfLifeDays JUndefined = ret (Int 7).
Proof.
  repeat split; intros; try apply calculateShelfLifeDays_returns.
Qed.

(** *** The request *)

Lemma opt_truthy_false o : o = None \/ o = Some "" -> opt_truthy o = false.
Proof. now intros [-> | ->]. Qed.

Lemma opt_truthy_true o s : o = Some s -> s <> "" -> opt_truthy o = true.
Proof. intros -> H. destruct s; [ congruence | reflexivity ]. Qed.

(** C3. When [barcode], [code] and [imageUri] are all absent or empty,
    [analyzeProduct] throws an [AIAnalysisError] with code MISSING_INPUT and
    the remote endpoint is not invoked. *)
Theorem analyzeProduct_missing_input env options :
  (Options.barcode options = None \/ Options.barcode options = Some "") ->
  (Options.code options = None \/ Options.code options = Some "") ->
  (Options.imageUri options = None \/ Options.imageUri options = Some "") ->
  (exists e, outcome (analyzeProduct env options) = inl (AI e)
             /\ AIAnalysisError.code e = Some "MISSING_INPUT")
  /\ trace (analyzeProduct env options) = [].
Proof.
  intros Hb Hc Hi.
  apply opt_truthy_false in Hb, Hc, Hi.
  unfold AiAnalysis.analyzeProduct, opt_or. rewrite Hb, Hc, Hi. simpl.
  split; [ eexists; split; reflexivity | reflexivity ].
Qed.

(** C9. Every invocation of the endpoint by [analyzeProduct] carries the
    barcode as its code whenever the barcode is supplied and non-empty, also
    when a non-empty generic code is supplied with it; the generic code (or
    the empty string) is sent only when the barcode is absent or empty. *)
Theorem analyzeProduct_barcode_priority env options fn body :
  In (Invoke fn body) (trace (analyzeProduct env options)) ->
  fn = "analyze-product"
  /\ Request.imageUri body = Options.imageUri options
  /\ (forall b, Options.barcode options = Some b -> b <> "" -> Request.code body = b)
  /\ (Options.barcode options = None \/ Options.barcode options = Some "" ->
      Request.code body = opt_or_str (Options.code options) "").
Proof.
  intros Hin. apply invoked_reaches in Hin as (_ & -> & ->).
  unfold requestBody, codeToAnalyze, opt_or. simpl.
  repeat split.
  - intros b Hb Hne. rewrite (opt_truthy_true _ _ Hb Hne), Hb. simpl.
    destruct b; [ congruence | reflexivity ].
  - intros Hb. now rewrite (opt_truthy_false _ Hb).
Qed.

(** *** A successful response *)

Lemma get_object ps k : get (JObj ps) k = ret (lookup ps k).
Proof. reflexivity. Qed.

Lemma prop_object v k w : prop v k = w -> w <> JUndefined -> exists ps, v = JObj ps.
Proof. destruct v; simpl; intros <- H; try congruence. eauto. Qed.

Lemma onResponse_success ps :
  truthy (lookup ps "error") = false ->
  exists n,
    calculateShelfLifeDays (lookup ps "expiryDate") = ret n
    /\ onResponse (JObj ps) None =
       ret {| name := or_else (lookup ps "productName")
                        (or_else (lookup ps "name") (JStr "Unknown Product"));
              category := or_else (lookup ps "category") (JStr "General");
              shelfLifeDays := n;
              confidenceScore := or_else (lookup ps "confidenceScore") (JNum 0);
              expiryDate := lookup ps "expiryDate";
              manualEntryRequired := or_else (lookup ps "manualEntryRequired") (JBool false) |}.
Proof.
  intros He.
  destruct (calculateShelfLifeDays_returns (lookup ps "expiryDate")) as [n Hn].
  exists n. split; [ exact Hn | ].
  unfold AiAnalysis.onResponse. cbn [truthy negb].
  rewrite !get_object, bind_ret_l, He.
  rewrite !bind_ret_l, Hn, !bind_ret_l.
  now destruct (truthy (lookup ps "manualEntryRequired")).
Qed.

(** The number [calculateShelfLifeDays] returns, value by value: the day
    count of a non-empty string or of a [Date], and 7 for everything else. *)
Lemma calculateShelfLifeDays_value expiryDate :
  calculateShelfLifeDays expiryDate =
  ret match expiryDate with
      | JStr s =>
          if nonempty s then ceil_div (sub (Date_parse s) (Int now)) msPerDay else Int 7
      | JDate tv => ceil_div (sub tv (Int now)) msPerDay
      | _ => Int 7
      end.
Proof.
  destruct expiryDate as [| | b | q | s | items | props | tv]; try reflexivity.
  - now destruct b.
  - unfold AiAnalysis.calculateShelfLifeDays. now destruct (truthy (JNum q)).
  - now destruct s.
Qed.

(** C1. When the invocation resolves without a transport error and the
    payload has no truthy [error] member and has [manualEntryRequired] set
    to [true], [analyzeProduct] returns a result (it does not throw) whose
    flag is [true], whose name and category fall back to "Unknown Product"
    and "General", and whose shelf life is derived from the [expiryDate] of
    the payload: for a non-empty text that parses to the time value [tv],
    the number [d] of days with [(d - 1) days < tv - now <= d days]; NaN
    for a non-empty text that is no date; and 7 when the payload has no
    [expiryDate], or one that is neither a text nor a date. *)
Theorem analyzeProduct_manual_entry_is_a_result env options fn body data :
  In (Invoke fn body) (trace (analyzeProduct env options)) ->
  functions_invoke env fn body = Resolved data None ->
  truthy (prop data "error") = false ->
  prop data "manualEntryRequired" = JBool true ->
  exists r,
    outcome (analyzeProduct env options) = inr r
    /\ manualEntryRequired r = JBool true
    /\ name r = or_else (prop data "productName")
                   (or_else (prop data "name") (JStr "Unknown Product"))
    /\ category r = or_else (prop data "category") (JStr "General")
    /\ expiryDate r = prop data "expiryDate"
    /\ shelfLifeDays r
       = match prop data "expiryDate" with
         | JStr s =>
             if nonempty s then ceil_div (sub (Date_parse s) (Int now)) msPerDay else Int 7
         | JDate tv => ceil_div (sub tv (Int now)) msPerDay
         | _ => Int 7
         end
    /\ (forall s tv,
          prop data "expiryDate" = JStr s -> s <> "" -> Date_parse s = Int tv ->
          exists d,
            shelfLifeDays r = Int d
            /\ (d - 1) * 86400000 < tv - now <= d * 86400000)
    /\ (forall s,
          prop data "expiryDate" = JStr s -> s <> "" -> Date_parse s = NaN ->
          shelfLifeDays r = NaN)
    /\ (truthy (prop data "expiryDate") = false -> shelfLifeDays r = Int 7).
Proof.
  intros Hin Hi He Hm.
  apply invoked_reaches in Hin as (Hr & -> & ->).
  destruct (analyzeProduct_resolved _ _ _ _ Hr Hi) as [_ ->].
  destruct (prop_object _ _ _ Hm) as [ps ->]; [ discriminate | ].
  simpl in He, Hm. cbn [prop].
  destruct (onResponse_success ps He) as (n & Hn & ->).
  rewrite calculateShelfLifeDays_value in Hn. inversion Hn as [Hv]. clear Hn.
  eexists. split; [ reflexivity | ]. cbn [name category shelfLifeDays expiryDate
                                          manualEntryRequired].
  rewrite Hm.
  split; [ reflexivity | ]. split; [ reflexivity | ]. split; [ reflexivity | ].
  split; [ reflexivity | ]. split; [ reflexivity | ]. split; [ | split ].
  - intros s tv -> Hs ->. destruct s as [| a s']; [ congruence | ].
    cbn [nonempty sub ceil_div]. eexists. split; [ reflexivity | ].
    pose proof (Z.div_mod (- (tv - now)) 86400000 ltac:(lia)) as Hd.
    pose proof (Z.mod_pos_bound (- (tv - now)) 86400000 ltac:(lia)) as Hb.
    change msPerDay with 86400000. lia.
  - intros s -> Hs ->. destruct s as [| a s']; [ congruence | reflexivity ].
  - intros Hf. destruct (lookup ps "expiryDate") as [| | b | q | s | items | props | tv];
      try reflexivity; try discriminate Hf.
    now destruct s.
Qed.

(** *** A transport error *)

Lemma interpretErrorBody_manual errorBody m c errorJson :
  JSON_parse errorBody = Some errorJson ->
  prop errorJson "manualEntryRequired" = JBool true ->
  exists n,
    calculateShelfLifeDays (prop errorJson "expiryDate") = ret n
    /\ interpretErrorBody errorBody m c =
       ret (Return {| name := or_else (prop errorJson "productName") (JStr "Unknown Product");
                      category := or_else (prop errorJson "category") (JStr "General");
                      shelfLifeDays := n;
                      confidenceScore := or_else (prop errorJson "confidenceScore") (JNum 0);
                      expiryDate := prop errorJson "expiryDate";
                      manualEntryRequired := JBool true |}).
Proof.
  intros Hp Hm.
  destruct (prop_object _ _ _ Hm) as [ps ->]; [ discriminate | ].
  simpl in Hm. cbn [prop].
  destruct (calculateShelfLifeDays_returns (lookup ps "expiryDate")) as [n Hn].
  exists n. split; [ exact Hn | ].
  unfold AiAnalysis.interpretErrorBody, parse. rewrite Hp.
  rewrite bind_ret_l, get_object, bind_ret_l, Hm. cbn [is_true].
  rewrite !get_object, !bind_ret_l, Hn, !bind_ret_l.
  reflexivity.
Qed.

Lemma is_true_false v : v <> JBool true -> is_true v = false.
Proof. destruct v as [| | [|] | | | | |]; simpl; congruence. Qed.

Lemma interpretErrorBody_error_text errorBody m c errorJson text :
  JSON_parse errorBody = Some errorJson ->
  prop errorJson "manualEntryRequired" <> JBool true ->
  prop errorJson "error" = JStr text ->
  text <> "" ->
  interpretErrorBody errorBody m c =
  ret (Continue (fst (classifyErrorMsg (toLowerCase text)))
                (snd (classifyErrorMsg (toLowerCase text)))).
Proof.
  intros Hp Hm He Hne.
  destruct (prop_object _ _ _ He) as [ps ->]; [ discriminate | ].
  simpl in Hm, He.
  unfold AiAnalysis.interpretErrorBody, parse. rewrite Hp.
  rewrite bind_ret_l, get_object, bind_ret_l, (is_true_false _ Hm).
  rewrite get_object, bind_ret_l, He.
  destruct text; [ congruence | reflexivity ].
Qed.

Lemma onInvokeError_flow error errorBody flow :
  outcome (extractErrorBody error) = inr (Some errorBody) ->
  errorBody <> "" ->
  interpretErrorBody errorBody "Failed to analyze product" "UNKNOWN_ERROR" = ret flow ->
  onInvokeError error =
  match flow with
  | Return result => ret result
  | Continue m c =>
      throw (AI {| AIAnalysisError.message :=
                     finalMessage error
                       (fst (applyStatus (errorStatusOf error) (Some errorBody) m c));
                   AIAnalysisError.code :=
                     Some (str_or (snd (applyStatus (errorStatusOf error) (Some errorBody) m c))
                                  "EDGE_FUNCTION_ERROR");
                   AIAnalysisError.originalError := CauseFunctions error |})
  end.
Proof.
  intros Hx Hne Hf.
  apply silent_value in Hx; [ | apply extractErrorBody_silent ].
  unfold AiAnalysis.onInvokeError. rewrite Hx, bind_ret_l.
  destruct errorBody; [ congruence | ]. cbn [nonempty].
  rewrite Hf, bind_ret_l. reflexivity.
Qed.

Section ParserFacts.
(** [JSON.parse("")] is a [SyntaxError]. *)
Hypothesis JSON_parse_empty : JSON_parse "" = None.

Lemma parsed_nonempty errorBody errorJson :
  JSON_parse errorBody = Some errorJson -> errorBody <> "".
Proof. intros H ->. congruence. Qed.

(** C5, as the code has it.  When the invocation ends with a transport error
    whose extracted body parses to a value with [manualEntryRequired] equal
    to [true], [analyzeProduct] does not throw: it returns a result with the
    flag set, whose name, category and confidence score are those of the
    body when they are truthy there, and "Unknown Product", "General" and 0
    when they are absent or falsy (an empty string, [null], 0, [false]). *)
Theorem analyzeProduct_manual_entry_from_error_body
  env options fn body data error errorBody errorJson :
  In (Invoke fn body) (trace (analyzeProduct env options)) ->
  functions_invoke env fn body = Resolved data (Some error) ->
  outcome (extractErrorBody error) = inr (Some errorBody) ->
  JSON_parse errorBody = Some errorJson ->
  prop errorJson "manualEntryRequired" = JBool true ->
  exists r,
    outcome (analyzeProduct env options) = inr r
    /\ manualEntryRequired r = JBool true
    /\ name r = or_else (prop errorJson "productName") (JStr "Unknown Product")
    /\ category r = or_else (prop errorJson "category") (JStr "General")
    /\ confidenceScore r = or_else (prop errorJson "confidenceScore") (JNum 0)
    /\ expiryDate r = prop errorJson "expiryDate"
    /\ calculateShelfLifeDays (prop errorJson "expiryDate") = ret (shelfLifeDays r).
Proof.
  intros Hin Hi Hx Hp Hm.
  apply invoked_reaches in Hin as (Hr & -> & ->).
  destruct (analyzeProduct_resolved _ _ _ _ Hr Hi) as [_ ->].
  destruct (interpretErrorBody_manual errorBody "Failed to analyze product" "UNKNOWN_ERROR"
              errorJson Hp Hm) as (n & Hn & Hf).
  cbn [AiAnalysis.onResponse].
  rewrite (onInvokeError_flow _ _ _ Hx (parsed_nonempty _ _ Hp) Hf).
  eexists. split; [ reflexivity | ]. simpl. repeat split; auto.
Qed.

Lemma status_is_false st n : st <> Some n -> status_is st n = false.
Proof.
  destruct st as [z |]; simpl; [ | reflexivity ].
  intros H. apply Z.eqb_neq. congruence.
Qed.

(** C2, as the code has it.  When the invocation ends with a transport error
    whose extracted body parses to a value that does not carry
    [manualEntryRequired: true] and whose [error] text, lower-cased, contains
    "rate limit" and none of the patterns tested before it ("openai api key",
    "api key is not configured", "invalid", "expired"), and the HTTP status
    is none of 401, 400, 502 and 503, the error [analyzeProduct] throws has
    code AI_RATE_LIMIT. *)
Theorem analyzeProduct_rate_limit
  env options fn body data error errorBody errorJson text :
  In (Invoke fn body) (trace (analyzeProduct env options)) ->
  functions_invoke env fn body = Resolved data (Some error) ->
  outcome (extractErrorBody error) = inr (Some errorBody) ->
  JSON_parse errorBody = Some errorJson ->
  prop errorJson "manualEntryRequired" <> JBool true ->
  prop errorJson "error" = JStr text ->
  includes (toLowerCase text) "rate limit" = true ->
  includes (toLowerCase text) "openai api key" = false ->
  includes (toLowerCase text) "api key is not configured" = false ->
  includes (toLowerCase text) "invalid" = false ->
  includes (toLowerCase text) "expired" = false ->
  errorStatusOf error <> Some 401 ->
  errorStatusOf error <> Some 400 ->
  errorStatusOf error <> Some 502 ->
  errorStatusOf error <> Some 503 ->
  exists e,
    outcome (analyzeProduct env options) = inl (AI e)
    /\ AIAnalysisError.code e = Some "AI_RATE_LIMIT".
Proof.
  intros Hin Hi Hx Hp Hm He Hrl H1 H2 H3 H4 S401 S400 S502 S503.
  apply invoked_reaches in Hin as (Hr & -> & ->).
  destruct (analyzeProduct_resolved _ _ _ _ Hr Hi) as [_ ->].
  assert (Hne : text <> "") by (intros ->; discriminate Hrl).
  pose proof (interpretErrorBody_error_text errorBody "Failed to analyze product"
                "UNKNOWN_ERROR" errorJson text Hp Hm He Hne) as Hf.
  cbn [AiAnalysis.onResponse].
  rewrite (onInvokeError_flow _ _ _ Hx (parsed_nonempty _ _ Hp) Hf).
  unfold classifyErrorMsg. rewrite H1, H2, H3, H4, Hrl. cbn [orb fst snd].
  unfold applyStatus.
  rewrite (status_is_false _ _ S401), (status_is_false _ _ S400),
    (status_is_false _ _ S502), (status_is_false _ _ S503).
  assert (Hset : not_set (Some errorBody) = false).
  { pose proof (parsed_nonempty _ _ Hp). now destruct errorBody. }
  rewrite Hset, andb_false_r. cbn [orb fst snd].
  eexists. split; reflexivity.
Qed.

End ParserFacts.

(** *** The codes of the errors thrown *)

Ltac ensures_step :=
  first
    [ apply ensures_bind
    | apply ensures_try_catch
    | apply ensures_ret
    | apply ensures_throw
    | match goal with
      | |- ensures _ _ (match ?x with _ => _ end) => destruct x
      | |- ensures _ _ (if ?b then _ else _) => destruct b
      end ].

Lemma ensures_calculateShelfLifeDays (P : number -> Prop) (Q : Thrown -> Prop) v :
  (forall n, P n) -> ensures P Q (calculateShelfLifeDays v).
Proof.
  intros H. destruct (calculateShelfLifeDays_returns v) as [n ->]. apply ensures_ret, H.
Qed.

Lemma extractErrorBody_returns error : exists o, extractErrorBody error = ret o.
Proof.
  assert (H : ensures (fun _ => True) (fun _ => False) (extractErrorBody error)).
  { unfold AiAnalysis.extractErrorBody, text. repeat ensures_step; exact I. }
  unfold ensures in H. destruct (outcome (extractErrorBody error)) as [x | o] eqn:Ho; [ easy | ].
  exists o. apply silent_value; [ apply extractErrorBody_silent | exact Ho ].
Qed.

Lemma classifyErrorMsg_vocabulary errorMsg :
  in_vocabulary (snd (classifyErrorMsg errorMsg)) = true.
Proof.
  unfold classifyErrorMsg.
  repeat match goal with |- context [if ?b then _ else _] => destruct b end; reflexivity.
Qed.

Lemma applyStatus_vocabulary st errorBody m c :
  in_vocabulary c = true -> in_vocabulary (snd (applyStatus st errorBody m c)) = true.
Proof.
  intros H. unfold applyStatus.
  repeat match goal with |- context [if ?b then _ else _] => destruct b end;
    solve [ reflexivity | exact H ].
Qed.

Lemma in_vocabulary_nonempty c : in_vocabulary c = true -> str_or c "EDGE_FUNCTION_ERROR" = c.
Proof. destruct c; [ discriminate | reflexivity ]. Qed.

Lemma interpretErrorBody_classified errorBody m c :
  in_vocabulary c = true ->
  ensures flow_classified (fun _ => False) (interpretErrorBody errorBody m c).
Proof.
  intros Hc. unfold AiAnalysis.interpretErrorBody, parse, get, call_toLowerCase.
  repeat first [ ensures_step | apply ensures_calculateShelfLifeDays; intros ];
    simpl; auto using classifyErrorMsg_vocabulary.
Qed.

Lemma onInvokeError_classified error :
  ensures (fun _ => True) (fun x => classified x = true) (onInvokeError error).
Proof.
  unfold AiAnalysis.onInvokeError.
  destruct (extractErrorBody_returns error) as [errorBody ->]. rewrite bind_ret_l.
  apply ensures_bind.
  apply ensures_weaken with
    (P := flow_classified) (Q := fun _ : Thrown => False); [ | | easy ].
  - destruct errorBody as [b |]; [ destruct (nonempty b) | ];
      solve [ now apply interpretErrorBody_classified | now apply ensures_ret ].
  - intros [r | m c] Hf; [ now apply ensures_ret | ].
    apply ensures_throw. simpl in Hf |- *.
    pose proof (applyStatus_vocabulary (errorStatusOf error) errorBody m c Hf) as Hv.
    now rewrite (in_vocabulary_nonempty _ Hv).
Qed.

Lemma onResponse_classified data error :
  ensures (fun _ => True) (fun x => classified x = true) (onResponse data error).
Proof.
  unfold AiAnalysis.onResponse.
  destruct error as [error |]; [ apply onInvokeError_classified | ].
  destruct (truthy data) eqn:Ht; cbn [negb]; [ | now apply ensures_throw ].
  assert (Hg : forall k, get data k = ret (prop data k)) by (now destruct data).
  rewrite !Hg, bind_ret_l.
  destruct (truthy (prop data "error")); [ now apply ensures_throw | ].
  rewrite !bind_ret_l.
  destruct (calculateShelfLifeDays_returns (prop data "expiryDate")) as [n ->].
  rewrite !bind_ret_l.
  now destruct (truthy (prop data "manualEntryRequired")).
Qed.

Lemma analyzeProduct_classified env options :
  ensures (fun _ => True) (fun x => classified x = true) (analyzeProduct env options).
Proof.
  unfold AiAnalysis.analyzeProduct, analyzeProduct_try.
  destruct (negb _ && negb _); [ now apply ensures_throw | ].
  apply ensures_try_catch.
  destruct (isSupabaseConfigured env); cbn [negb]; [ | now apply ensures_throw ].
  destruct (urlIsPlaceholder env || keyIsPlaceholder env); [ now apply ensures_throw | ].
  destruct (keyIsPublishable env && negb (keyIsJWT env)); [ now apply ensures_throw | ].
  apply ensures_bind. unfold invoke.
  destruct (functions_invoke env _ _) as [data error | f]; [ | now destruct f ].
  unfold ensures at 1. cbn.
  apply ensures_weaken with (1 := onResponse_classified data error); [ easy | ].
  intros [e | f] Hx; [ exact Hx | discriminate Hx ].
Qed.

Lemma in_vocabulary_In c : in_vocabulary c = true -> In c vocabulary.
Proof.
  unfold in_vocabulary. rewrite existsb_exists.
  intros (c' & Hin & Heq). apply String.eqb_eq in Heq. now subst.
Qed.

(** C8. Whenever [analyzeProduct] throws, what it throws is an
    [AIAnalysisError] whose code is one of the seventeen codes of the
    vocabulary; in particular the code is never EDGE_FUNCTION_ERROR. *)
Theorem analyzeProduct_codes_in_vocabulary env options x :
  outcome (analyzeProduct env options) = inl x ->
  exists e c,
    x = AI e
    /\ AIAnalysisError.code e = Some c
    /\ In c vocabulary
    /\ c <> "EDGE_FUNCTION_ERROR".
Proof.
  intros Ho. pose proof (analyzeProduct_classified env options) as H.
  unfold ensures in H. rewrite Ho in H.
  destruct x as [e | f]; [ | discriminate H ].
  simpl in H. destruct (AIAnalysisError.code e) as [c |] eqn:Hc; [ | discriminate H ].
  exists e, c. repeat split; auto using in_vocabulary_In.
  intros ->. discriminate H.
Qed.

(** *** Status 401 *)

(** What the block of lines 185-236 returns, when it returns, carries the
    flag. *)
Lemma interpretErrorBody_returns_flagged errorBody m c :
  ensures (fun flow => match flow with
                       | Return r => manualEntryRequired r = JBool true
                       | Continue _ _ => True
                       end)
          (fun _ => False) (interpretErrorBody errorBody m c).
Proof.
  unfold AiAnalysis.interpretErrorBody, parse, get, call_toLowerCase.
  repeat first [ ensures_step | apply ensures_calculateShelfLifeDays; intros ];
    simpl; auto.
Qed.

(** At status 401 a transport error either becomes a manual-entry result or
    is thrown with code AUTH_FAILED, whatever its body says. *)
Lemma onInvokeError_401 error :
  errorStatusOf error = Some 401 ->
  ensures (fun r => manualEntryRequired r = JBool true)
          (fun x => exists e, x = AI e /\ AIAnalysisError.code e = Some "AUTH_FAILED")
          (onInvokeError error).
Proof.
  intros Hs. unfold AiAnalysis.onInvokeError.
  destruct (extractErrorBody_returns error) as [errorBody ->]. rewrite bind_ret_l.
  apply ensures_bind.
  eapply ensures_weaken with (Q := fun _ : Thrown => False); [ | | easy ].
  - destruct errorBody as [b |]; [ destruct (nonempty b) | ];
      solve [ apply interpretErrorBody_returns_flagged | now apply ensures_ret ].
  - intros [r | m c] Hf; [ now apply ensures_ret | ].
    apply ensures_throw. unfold applyStatus. rewrite Hs. simpl.
    eexists. split; reflexivity.
Qed.

(** *** The key of the wrong type *)

Lemma publishable_is_not_JWT key :
  startsWith key "sb_publishable_" = true -> startsWith key "eyJ" = false.
Proof.
  unfold startsWith. destruct key as [| a key']; [ discriminate | ].
  intros H. apply andb_prop in H as [Ha _].
  apply Ascii.eqb_eq in Ha. now subst a.
Qed.

(** C4, as the code has it.  When the key starts with "sb_publishable_"
    (so not with "eyJ"), [analyzeProduct] never invokes the endpoint; and
    when moreover the request supplies a code or an image, the project is
    configured and the placeholder check does not match, the error thrown
    has code WRONG_KEY_TYPE. *)
Theorem analyzeProduct_wrong_key_type env options key :
  EXPO_PUBLIC_SUPABASE_ANON_KEY env = Some key ->
  startsWith key "sb_publishable_" = true ->
  startsWith key "eyJ" = false
  /\ trace (analyzeProduct env options) = []
  /\ (opt_truthy (Options.barcode options) || opt_truthy (Options.code options)
      || opt_truthy (Options.imageUri options) = true ->
      isSupabaseConfigured env = true ->
      urlIsPlaceholder env || keyIsPlaceholder env = false ->
      exists e,
        outcome (analyzeProduct env options) = inl (AI e)
        /\ AIAnalysisError.code e = Some "WRONG_KEY_TYPE").
Proof.
  intros Hk Hp.
  pose proof (publishable_is_not_JWT _ Hp) as Hj.
  assert (Hs : supabaseKey env = key).
  { unfold supabaseKey. rewrite Hk. destruct key; [ discriminate Hp | reflexivity ]. }
  assert (Hw : keyIsPublishable env && negb (keyIsJWT env) = true).
  { unfold keyIsPublishable, keyIsJWT. now rewrite Hs, Hp, Hj. }
  split; [ exact Hj | split ].
  - apply analyzeProduct_blocked. unfold reachesEndpoint. rewrite Hw.
    cbn [negb]. apply andb_false_r.
  - intros Hin Hc Hph.
    unfold AiAnalysis.analyzeProduct, analyzeProduct_try, opt_or.
    rewrite Hc, Hph, Hw. cbn [negb].
    destruct (opt_truthy (Options.barcode options)) eqn:Hb;
      [ rewrite Hb | destruct (opt_truthy (Options.code options)) eqn:Hcd ];
      cbn [orb negb andb] in Hin |- *; try rewrite Hin; cbn [negb andb];
      eexists; split; reflexivity.
Qed.

End Props.

(** *** The theorems on sample runs *)

Local Abbreviation run := (analyzeProduct Samples.JSON_parse Samples.Date_parse Samples.now Samples.ToString).

(** The scenario of the specification: a code, and a full answer of the
    endpoint. *)
Example analyzeProduct_organic_milk :
  run (Samples.env_with Samples.jwt_key (Resolved Samples.data_milk None))
      {| Options.barcode := None; Options.imageUri := None; Options.code := Some "123456" |}
  = ([Invoke "analyze-product" {| Request.code := "123456"; Request.imageUri := None |}],
     inr {| name := JStr "Organic Milk";
            category := JStr "Dairy";
            shelfLifeDays := Int 7;
            confidenceScore := JNum (85 # 100);
            expiryDate := JStr "2024-12-31";
            manualEntryRequired := JBool false |}).
Proof. reflexivity. Qed.

(** An image alone goes to the endpoint with an empty code. *)
Example analyzeProduct_image_only :
  trace (run (Samples.env_with Samples.jwt_key (Resolved Samples.data_milk None))
             {| Options.barcode := None; Options.imageUri := Some "file:///photo.jpg";
                Options.code := None |})
  = [Invoke "analyze-product"
       {| Request.code := ""; Request.imageUri := Some "file:///photo.jpg" |}].
Proof. reflexivity. Qed.

(** Status 500 without a body, and a rejected invocation. *)
Example analyzeProduct_server_error :
  thrown_code
    (run (Samples.env_with Samples.jwt_key
            (Resolved JNull
               (Some {| FunctionsError.context := None;
                        FunctionsError.status := Some 500;
                        FunctionsError.message := None |})))
         (Samples.scan "123456"))
  = Some "SERVER_ERROR".
Proof. reflexivity. Qed.

Example analyzeProduct_network_failure :
  thrown_code
    (run (Samples.env_with Samples.jwt_key (Rejected (ForeignError "Network request failed")))
         (Samples.scan "123456"))
  = Some "UNKNOWN_ERROR".
Proof. reflexivity. Qed.

Lemma analyzeProduct_missing_input_witness :
  (exists e, outcome (run (Samples.env_with Samples.jwt_key (Resolved JNull None))
                          Samples.no_input) = inl (AI e)
             /\ AIAnalysisError.code e = Some "MISSING_INPUT")
  /\ trace (run (Samples.env_with Samples.jwt_key (Resolved JNull None)) Samples.no_input) = [].
Proof.
  apply (analyzeProduct_missing_input Samples.JSON_parse Samples.Date_parse Samples.now Samples.ToString);
    left; reflexivity.
Defined.

Lemma analyzeProduct_barcode_priority_witness :
  "analyze-product" = "analyze-product"
  /\ None = Options.imageUri Samples.barcode_and_code
  /\ (forall b, Options.barcode Samples.barcode_and_code = Some b -> b <> "" ->
      "4006381333931" = b)
  /\ (Options.barcode Samples.barcode_and_code = None
      \/ Options.barcode Samples.barcode_and_code = Some "" ->
      "4006381333931" = opt_or_str (Options.code Samples.barcode_and_code) "").
Proof.
  apply (analyzeProduct_barcode_priority Samples.JSON_parse Samples.Date_parse Samples.now Samples.ToString
           (Samples.env_with Samples.jwt_key (Resolved Samples.data_manual None))
           Samples.barcode_and_code "analyze-product"
           {| Request.code := "4006381333931"; Request.imageUri := None |}).
  vm_compute. left. reflexivity.
Defined.

Lemma analyzeProduct_manual_entry_is_a_result_witness :
  exists r,
    outcome (AiAnalysis.analyzeProduct Samples.JSON_parse Samples.Date_parse Samples.later
               Samples.ToString
               (Samples.env_with Samples.jwt_key (Resolved Samples.data_manual None))
               (Samples.scan "123456")) = inr r
    /\ manualEntryRequired r = JBool true
    /\ name r = JStr "Unknown Product"
    /\ category r = JStr "General"
    /\ expiryDate r = JStr "2024-12-31"
    /\ shelfLifeDays r = Int 4
    /\ (3 * 86400000 < 1735603200000 - Samples.later <= 4 * 86400000).
Proof.
  destruct (analyzeProduct_manual_entry_is_a_result
              Samples.JSON_parse Samples.Date_parse Samples.later Samples.ToString
              (Samples.env_with Samples.jwt_key (Resolved Samples.data_manual None))
              (Samples.scan "123456") "analyze-product"
              {| Request.code := "123456"; Request.imageUri := None |}
              Samples.data_manual)
    as (r & Ho & Hm & Hn & Hc & He & Hd & Hb & _).
  - vm_compute. left. reflexivity.
  - reflexivity.
  - reflexivity.
  - reflexivity.
  - exists r.
    destruct (Hb "2024-12-31" 1735603200000 eq_refl ltac:(discriminate) eq_refl)
      as (d & Hd' & Hbound).
    rewrite Hd' in Hd. vm_compute in Hd. inversion Hd; subst d.
    repeat (split; [ assumption | ]). exact Hbound.
Defined.

Lemma analyzeProduct_manual_entry_from_error_body_witness :
  exists r,
    outcome (run (Samples.env_with Samples.jwt_key
                    (Resolved JNull (Some (Samples.http_error 500 Samples.body_manual))))
                 (Samples.scan "123456")) = inr r
    /\ manualEntryRequired r = JBool true
    /\ name r = JStr "Oat Milk"
    /\ category r = JStr "General"
    /\ confidenceScore r = JNum 0.
Proof.
  destruct (analyzeProduct_manual_entry_from_error_body
              Samples.JSON_parse Samples.Date_parse Samples.now Samples.ToString eq_refl
              (Samples.env_with Samples.jwt_key
                 (Resolved JNull (Some (Samples.http_error 500 Samples.body_manual))))
              (Samples.scan "123456") "analyze-product"
              {| Request.code := "123456"; Request.imageUri := None |}
              JNull (Samples.http_error 500 Samples.body_manual) Samples.body_manual
              (JObj [("manualEntryRequired", JBool true); ("productName", JStr "Oat Milk");
                     ("expiryDate", JStr "2024-12-31")]))
    as (r & Ho & Hm & Hn & Hc & Hs & _).
  - vm_compute. left. reflexivity.
  - reflexivity.
  - reflexivity.
  - reflexivity.
  - reflexivity.
  - exists r. auto.
Defined.

(** C5, as stated, fails where the body carries an empty [productName]: the
    member is present, and the result has the default name, not the name of
    the body. *)
Lemma analyzeProduct_blank_name_is_defaulted :
  outcome (extractErrorBody (Samples.http_error 500 Samples.body_manual_blank_name))
    = inr (Some Samples.body_manual_blank_name)
  /\ (exists errorJson,
        Samples.JSON_parse Samples.body_manual_blank_name = Some errorJson
        /\ prop errorJson "manualEntryRequired" = JBool true
        /\ prop errorJson "productName" = JStr "")
  /\ (exists r,
        outcome (run (Samples.env_with Samples.jwt_key
                        (Resolved JNull
                           (Some (Samples.http_error 500 Samples.body_manual_blank_name))))
                     (Samples.scan "123456")) = inr r
        /\ name r = JStr "Unknown Product"
        /\ name r <> JStr "").
Proof.
  split; [ reflexivity | split ].
  - eexists. repeat split; reflexivity.
  - eexists. split; [ reflexivity | ]. split; [ reflexivity | discriminate ].
Qed.

Lemma analyzeProduct_rate_limit_witness :
  exists e,
    outcome (run (Samples.env_with Samples.jwt_key
                    (Resolved JNull (Some (Samples.http_error 500 Samples.body_rate_limit))))
                 (Samples.scan "123456")) = inl (AI e)
    /\ AIAnalysisError.code e = Some "AI_RATE_LIMIT".
Proof.
  apply (analyzeProduct_rate_limit
           Samples.JSON_parse Samples.Date_parse Samples.now Samples.ToString eq_refl
           (Samples.env_with Samples.jwt_key
              (Resolved JNull (Some (Samples.http_error 500 Samples.body_rate_limit))))
           (Samples.scan "123456") "analyze-product"
           {| Request.code := "123456"; Request.imageUri := None |}
           JNull (Samples.http_error 500 Samples.body_rate_limit) Samples.body_rate_limit
           (JObj [("error", JStr "rate limit exceeded")]) "rate limit exceeded");
    try reflexivity; try discriminate.
  vm_compute. left. reflexivity.
Defined.

(** C2, as stated, fails at status 401: the error text contains "rate limit"
    and the code thrown is AUTH_FAILED. *)
Lemma analyzeProduct_rate_limit_under_401 :
  outcome (extractErrorBody (Samples.http_error 401 Samples.body_rate_limit))
    = inr (Some Samples.body_rate_limit)
  /\ Samples.JSON_parse Samples.body_rate_limit = Some (JObj [("error", JStr "rate limit exceeded")])
  /\ includes "rate limit exceeded" "rate limit" = true
  /\ errorStatusOf (Samples.http_error 401 Samples.body_rate_limit) = Some 401
  /\ thrown_code (run (Samples.env_with Samples.jwt_key
                         (Resolved JNull
                            (Some (Samples.http_error 401 Samples.body_rate_limit))))
                      (Samples.scan "123456")) = Some "AUTH_FAILED"
  /\ thrown_code (run (Samples.env_with Samples.jwt_key
                         (Resolved JNull
                            (Some (Samples.http_error 401 Samples.body_rate_limit))))
                      (Samples.scan "123456")) <> Some "AI_RATE_LIMIT".
Proof. repeat split; try reflexivity. discriminate. Qed.

(** The order of the table matters as well: a text with "invalid" before
    "rate limit" is classified AI_AUTH_FAILED, at a status that overrides
    nothing. *)
Lemma analyzeProduct_rate_limit_after_invalid :
  thrown_code (run (Samples.env_with Samples.jwt_key
                      (Resolved JNull
                         (Some (Samples.http_error 500 Samples.body_invalid_rate_limit))))
                   (Samples.scan "123456")) = Some "AI_AUTH_FAILED".
Proof. reflexivity. Qed.

Lemma analyzeProduct_codes_in_vocabulary_witness :
  exists e c,
    mkError "Authentication failed. Please restart the app." "AUTH_FAILED"
            (CauseFunctions (Samples.http_error 401 Samples.body_rate_limit)) = AI e
    /\ AIAnalysisError.code e = Some c
    /\ In c vocabulary
    /\ c <> "EDGE_FUNCTION_ERROR".
Proof.
  apply (analyzeProduct_codes_in_vocabulary
           Samples.JSON_parse Samples.Date_parse Samples.now Samples.ToString
           (Samples.env_with Samples.jwt_key
              (Resolved JNull (Some (Samples.http_error 401 Samples.body_rate_limit))))
           (Samples.scan "123456")).
  reflexivity.
Defined.

Lemma analyzeProduct_wrong_key_type_witness :
  startsWith Samples.publishable_key "eyJ" = false
  /\ trace (run (Samples.env_with Samples.publishable_key (Resolved Samples.data_manual None))
                (Samples.scan "123456")) = []
  /\ exists e,
       outcome (run (Samples.env_with Samples.publishable_key
                       (Resolved Samples.data_manual None))
                    (Samples.scan "123456")) = inl (AI e)
       /\ AIAnalysisError.code e = Some "WRONG_KEY_TYPE".
Proof.
  destruct (analyzeProduct_wrong_key_type
              Samples.JSON_parse Samples.Date_parse Samples.now Samples.ToString
              (Samples.env_with Samples.publishable_key (Resolved Samples.data_manual None))
              (Samples.scan "123456") Samples.publishable_key)
    as (Hj & Ht & He).
  - reflexivity.
  - reflexivity.
  - split; [ exact Hj | split; [ exact Ht | ] ].
    apply He; reflexivity.
Defined.

(** C4, as stated, fails on a request without input: the key is a
    publishable key, the placeholder check does not match, and the error
    thrown is MISSING_INPUT. *)
Lemma analyzeProduct_publishable_key_without_input :
  startsWith Samples.publishable_key "sb_publishable_" = true
  /\ startsWith Samples.publishable_key "eyJ" = false
  /\ urlIsPlaceholder (Samples.env_with Samples.publishable_key (Resolved JNull None))
     || keyIsPlaceholder (Samples.env_with Samples.publishable_key (Resolved JNull None))
     = false
  /\ thrown_code (run (Samples.env_with Samples.publishable_key (Resolved JNull None))
                      Samples.no_input) = Some "MISSING_INPUT"
  /\ thrown_code (run (Samples.env_with Samples.publishable_key (Resolved JNull None))
                      Samples.no_input) <> Some "WRONG_KEY_TYPE".
Proof. repeat split; try reflexivity. discriminate. Qed.

End AiAnalysisProps.

(** ** Properties of the manual-entry screen *)

Module ManualEntryProps.
Import Js ManualEntryScreen CompLaws.
Local Open Scope comp_scope.

(** C7. For an integer day count [d] the status label is "EXPIRED" when
    [d < 0], "EXPIRES TODAY" when [d = 0], "Expires tomorrow" when [d = 1],
    and "Expires in N days", with N the decimal writing of [d], when
    [d > 1]. *)
Theorem statusOf_label (d : Z) :
  (d < 0 -> statusOf (Int d) = "EXPIRED")
  /\ (d = 0 -> statusOf (Int d) = "EXPIRES TODAY")
  /\ (d = 1 -> statusOf (Int d) = "Expires tomorrow")
  /\ (d > 1 -> statusOf (Int d)
               = "Expires in " ++ NilZero.string_of_int (Z.to_int d) ++ " days").
Proof.
  unfold statusOf, lt, strict_eq, Number_toString.
  repeat split; intros H.
  - apply Z.ltb_lt in H. now rewrite H.
  - now subst d.
  - now subst d.
  - destruct (Z.ltb_spec d 0); [ lia | ].
    destruct (Z.eqb_spec d 0); [ lia | ].
    destruct (Z.eqb_spec d 1); [ lia | reflexivity ].
Qed.

Lemma statusOf_label_witness :
  statusOf (Int (-3)) = "EXPIRED"
  /\ statusOf (Int 0) = "EXPIRES TODAY"
  /\ statusOf (Int 1) = "Expires tomorrow"
  /\ statusOf (Int 12) = "Expires in 12 days".
Proof.
  split; [ | split; [ | split ] ].
  - apply (proj1 (statusOf_label (-3))). lia.
  - apply (proj1 (proj2 (statusOf_label 0))). reflexivity.
  - apply (proj1 (proj2 (proj2 (statusOf_label 1)))). reflexivity.
  - apply (proj2 (proj2 (proj2 (statusOf_label 12)))). lia.
Defined.

(** A day count that is not a number gets the last label. *)
Lemma statusOf_NaN : statusOf NaN = "Expires in NaN days".
Proof. reflexivity. Qed.

Section Props.
Variable Date_parse : string -> number.
Variable now : Z.
Variable store_accepts : Item.t -> bool.

Local Abbreviation handleSubmit := (handleSubmit Date_parse now store_accepts).

(** A submission without a name or without an expiry date is stopped by the
    validation: one notice, no write, no field touched. *)
Lemma handleSubmit_missing_information props st :
  trim (productName st) = "" \/ trim (expiryDate st) = "" ->
  alerts (trace (handleSubmit props st)) = ["Missing Information"]
  /\ writes (trace (handleSubmit props st)) = []
  /\ after st (trace (handleSubmit props st)) = st.
Proof.
  intros H. unfold ManualEntryScreen.handleSubmit.
  assert (Hv : negb (nonempty (trim (productName st)))
               || negb (nonempty (trim (expiryDate st))) = true).
  { destruct H as [-> | ->]; [ reflexivity | apply orb_true_r ]. }
  rewrite Hv. repeat split.
Qed.

(** Past the validation the trace does not depend on what the date parser
    gives: the first [try] block cannot throw. *)
Lemma handleSubmit_validated props st :
  trim (productName st) <> "" ->
  trim (expiryDate st) <> "" ->
  trace (handleSubmit props st) =
  if store_accepts (itemOf st) then
    [ SetSaving true; AddInventoryItem (itemOf st);
      SetProductName ""; SetCategory "";
      SetBarcode (match initialBarcode props with Some b => str_or b "" | None => "" end);
      SetExpiryDate "";
      Alert "Success" "Product saved to inventory!" ["Add Another"; "View Inventory"; "Done"];
      SetSaving false ]
  else
    [ SetSaving true; AddInventoryItem (itemOf st);
      Alert "Error" "Failed to save product to inventory. Please try again."
            ["Retry"; "Cancel"];
      SetSaving false ].
Proof.
  intros Hn He. unfold ManualEntryScreen.handleSubmit.
  destruct (trim (productName st)) eqn:Hpn; [ congruence | ].
  destruct (trim (expiryDate st)) eqn:Hed; [ congruence | ].
  cbn [nonempty negb orb]. rewrite try_catch_ret, bind_ret_l.
  unfold addInventoryItem, itemOf. cbn [savedName savedCategory savedExpiryDate].
  rewrite Hpn.
  now destruct (store_accepts _).
Qed.

(** When the store refuses the record the fields keep their values. *)
Lemma handleSubmit_store_failure props st :
  trim (productName st) <> "" ->
  trim (expiryDate st) <> "" ->
  store_accepts (itemOf st) = false ->
  alerts (trace (handleSubmit props st)) = ["Error"]
  /\ productName (after st (trace (handleSubmit props st))) = productName st
  /\ category (after st (trace (handleSubmit props st))) = category st
  /\ barcode (after st (trace (handleSubmit props st))) = barcode st
  /\ expiryDate (after st (trace (handleSubmit props st))) = expiryDate st
  /\ saving (after st (trace (handleSubmit props st))) = false.
Proof.
  intros Hn He Hs. rewrite (handleSubmit_validated props st Hn He), Hs.
  repeat split.
Qed.

(** C6 on the code.  A submission with a name and with an expiry date that
    is not blank and does not parse as a date is not stopped: the record is
    handed to the store with the text of the date as it was typed, no
    "Invalid Date" notice is shown, and when the store takes the record the
    fields are cleared. *)
Theorem handleSubmit_unparsable_date_is_written props st :
  trim (productName st) <> "" ->
  trim (expiryDate st) <> "" ->
  Date_parse (expiryDate st) = NaN ->
  writes (trace (handleSubmit props st)) = [itemOf st]
  /\ Item.expiry_date (itemOf st) = expiryDate st
  /\ ~ In "Invalid Date" (alerts (trace (handleSubmit props st)))
  /\ (store_accepts (itemOf st) = true ->
      alerts (trace (handleSubmit props st)) = ["Success"]
      /\ productName (after st (trace (handleSubmit props st))) = ""
      /\ expiryDate (after st (trace (handleSubmit props st))) = "").
Proof.
  intros Hn He _. rewrite (handleSubmit_validated props st Hn He).
  destruct (store_accepts (itemOf st)); repeat split; simpl; try congruence;
    intros [H | []]; discriminate H.
Qed.

End Props.

Lemma handleSubmit_unparsable_date_is_written_witness :
  writes (trace (handleSubmit Samples.Date_parse Samples.now Samples.store_ok
                   Samples.no_props Samples.form_soon))
  = [ {| Item.barcode := "Manual Entry"; Item.product_name := "Milk";
         Item.category := "General"; Item.expiry_date := "soon";
         Item.ai_confidence := 1%Q |} ]
  /\ alerts (trace (handleSubmit Samples.Date_parse Samples.now Samples.store_ok
                      Samples.no_props Samples.form_soon)) = ["Success"]
  /\ productName (after Samples.form_soon
                    (trace (handleSubmit Samples.Date_parse Samples.now Samples.store_ok
                              Samples.no_props Samples.form_soon))) = "".
Proof.
  destruct (handleSubmit_unparsable_date_is_written
              Samples.Date_parse Samples.now Samples.store_ok
              Samples.no_props Samples.form_soon)
    as (Hw & _ & _ & Hs).
  - vm_compute. discriminate.
  - vm_compute. discriminate.
  - reflexivity.
  - destruct (Hs eq_refl) as (Ha & Hp & _).
    split; [ exact Hw | split; [ exact Ha | exact Hp ] ].
Defined.

End ManualEntryProps.

(** ** Further properties of [src/services/aiAnalysis.ts] *)

Module AiAnalysisMore.
Import Js AiAnalysis CompLaws AiAnalysisProps.
Local Open Scope comp_scope.

Ltac flow_step :=
  first
    [ apply ensures_bind
    | apply ensures_try_catch
    | apply ensures_ret
    | apply ensures_throw
    | apply ensures_calculateShelfLifeDays; intros
    | match goal with
      | |- ensures _ _ (match ?x with _ => _ end) => destruct x
      | |- ensures _ _ (if ?b then _ else _) => destruct b
      end ].

Section More.
Variable JSON_parse : string -> option JsVal.
Variable Date_parse : string -> number.
Variable now : Z.
Variable ToString : JsVal -> string.

Local Abbreviation calculateShelfLifeDays := (calculateShelfLifeDays Date_parse now).
Local Abbreviation interpretErrorBody := (interpretErrorBody JSON_parse Date_parse now).
Local Abbreviation onInvokeError := (onInvokeError JSON_parse Date_parse now).
Local Abbreviation onResponse := (onResponse JSON_parse Date_parse now ToString).
Local Abbreviation analyzeProduct := (analyzeProduct JSON_parse Date_parse now ToString).
Local Abbreviation analyzeProductFromBarcode :=
  (analyzeProductFromBarcode JSON_parse Date_parse now ToString).
Local Abbreviation analyzeProductFromImage :=
  (analyzeProductFromImage JSON_parse Date_parse now ToString).

(** *** Shared facts *)

Lemma or_else_truthy a b : truthy b = true -> truthy (or_else a b) = true.
Proof. intros H. unfold or_else. now destruct (truthy a) eqn:Ha. Qed.

(** The block of lines 185-236 never throws: it ends with a flagged result
    or with a message and a code of the vocabulary. *)
Lemma interpretErrorBody_ends errorBody m c :
  in_vocabulary c = true ->
  exists flow,
    interpretErrorBody errorBody m c = ret flow
    /\ match flow with
       | Return r => manualEntryRequired r = JBool true
       | Continue _ c' => in_vocabulary c' = true
       end.
Proof.
  intros Hc.
  pose proof (interpretErrorBody_classified JSON_parse Date_parse now errorBody m c Hc) as H1.
  pose proof (interpretErrorBody_returns_flagged JSON_parse Date_parse now errorBody m c) as H2.
  unfold ensures in H1, H2.
  destruct (outcome (interpretErrorBody errorBody m c)) as [x | flow] eqn:Ho; [ easy | ].
  exists flow. split.
  - apply silent_value; [ apply interpretErrorBody_silent | exact Ho ].
  - now destruct flow.
Qed.

(** How the branch of a transport error ends: with a flagged result, or with
    an error built from the two variables after the status block. *)
Lemma onInvokeError_ends error :
  exists errorBody,
    extractErrorBody error = ret errorBody
    /\ ((exists r, onInvokeError error = ret r /\ manualEntryRequired r = JBool true)
        \/ (exists m c,
              in_vocabulary c = true
              /\ (not_set errorBody = true ->
                  m = "Failed to analyze product" /\ c = "UNKNOWN_ERROR")
              /\ onInvokeError error =
                 throw (mkError
                          (finalMessage error
                                   (fst (applyStatus (errorStatusOf error) errorBody m c)))
                          (snd (applyStatus (errorStatusOf error) errorBody m c))
                          (CauseFunctions error)))).
Proof.
  destruct (extractErrorBody_returns error) as [errorBody Hx].
  exists errorBody. split; [ exact Hx | ].
  unfold AiAnalysis.onInvokeError. rewrite Hx, bind_ret_l.
  assert (Hdefault :
    exists m c,
      in_vocabulary c = true
      /\ (m = "Failed to analyze product" /\ c = "UNKNOWN_ERROR")
      /\ bind (ret (E:=Call) (X:=Thrown) (Continue "Failed to analyze product" "UNKNOWN_ERROR"))
           (fun flow =>
              match flow with
              | Return result => ret result
              | Continue m c =>
                  throw (AI {| AIAnalysisError.message :=
                                 finalMessage error
                                         (fst (applyStatus (errorStatusOf error) errorBody m c));
                               AIAnalysisError.code :=
                                 Some (str_or
                                         (snd (applyStatus (errorStatusOf error) errorBody m c))
                                         "EDGE_FUNCTION_ERROR");
                               AIAnalysisError.originalError := CauseFunctions error |})
              end)
         = throw (mkError
                    (finalMessage error
                             (fst (applyStatus (errorStatusOf error) errorBody m c)))
                    (snd (applyStatus (errorStatusOf error) errorBody m c))
                    (CauseFunctions error))).
  { exists "Failed to analyze product", "UNKNOWN_ERROR".
    split; [ reflexivity | split; [ now split | ] ].
    rewrite bind_ret_l. unfold mkError.
    now rewrite (in_vocabulary_nonempty _
                   (applyStatus_vocabulary (errorStatusOf error) errorBody _ "UNKNOWN_ERROR"
                      eq_refl)). }
  destruct errorBody as [b |]; [ destruct (nonempty b) eqn:Hb | ].
  - destruct (interpretErrorBody_ends b "Failed to analyze product" "UNKNOWN_ERROR" eq_refl)
      as ([r | m c] & -> & Hf); rewrite bind_ret_l.
    + left. now exists r.
    + right. exists m, c. split; [ exact Hf | split ].
      * unfold not_set. simpl. rewrite Hb. discriminate.
      * unfold mkError.
        now rewrite (in_vocabulary_nonempty _
                       (applyStatus_vocabulary (errorStatusOf error) (Some b) m c Hf)).
  - right. destruct Hdefault as (m & c & Hc & Hmc & He). exists m, c. auto.
  - right. destruct Hdefault as (m & c & Hc & Hmc & He). exists m, c. auto.
Qed.

Lemma answered env options fn body data error :
  In (Invoke fn body) (trace (analyzeProduct env options)) ->
  functions_invoke env fn body = Resolved data error ->
  outcome (analyzeProduct env options)
  = outcome (try_catch (onResponse data error) analyzeProduct_catch).
Proof.
  intros Hin Hi.
  apply (invoked_reaches JSON_parse Date_parse now ToString) in Hin as (Hr & -> & ->).
  now destruct (analyzeProduct_resolved JSON_parse Date_parse now ToString _ _ _ _ Hr Hi) as [_ ->].
Qed.

Lemma input_guard options :
  opt_truthy (Options.barcode options) || opt_truthy (Options.code options)
  || opt_truthy (Options.imageUri options) = true ->
  negb (opt_truthy (opt_or (Options.barcode options) (Options.code options)))
  && negb (opt_truthy (Options.imageUri options)) = false.
Proof.
  unfold opt_or.
  destruct (opt_truthy (Options.barcode options)) eqn:Hb; [ now rewrite Hb | ].
  destruct (opt_truthy (Options.code options)); [ reflexivity | ].
  simpl. now intros ->.
Qed.

(** *** The invocation *)

(** X1. A run invokes the endpoint at most once, whatever the endpoint
    answers, and what it invokes is the function "analyze-product" with the
    barcode (else the code, else the empty string) and the image of the
    request. *)
Theorem analyzeProduct_invokes_at_most_once env options :
  (List.length (trace (analyzeProduct env options)) <= 1)%nat
  /\ forall call,
       In call (trace (analyzeProduct env options)) ->
       call = Invoke "analyze-product"
                {| Request.code :=
                     opt_or_str (opt_or (Options.barcode options) (Options.code options)) "";
                   Request.imageUri := Options.imageUri options |}.
Proof.
  rewrite (analyzeProduct_trace JSON_parse Date_parse now ToString).
  destruct (reachesEndpoint env options); simpl; split; auto.
  - intros call [<- | []]. reflexivity.
  - intros call [].
Qed.

(** *** The guards of the configuration *)

(** X2. With a request that has an input, a project that is not configured
    gets NOT_CONFIGURED and the endpoint is not invoked. *)
Theorem analyzeProduct_not_configured env options :
  opt_truthy (Options.barcode options) || opt_truthy (Options.code options)
  || opt_truthy (Options.imageUri options) = true ->
  isAIAnalysisConfigured env = false ->
  (exists e, outcome (analyzeProduct env options) = inl (AI e)
             /\ AIAnalysisError.code e = Some "NOT_CONFIGURED")
  /\ trace (analyzeProduct env options) = [].
Proof.
  intros Hin Hc. unfold isAIAnalysisConfigured in Hc.
  unfold AiAnalysis.analyzeProduct, analyzeProduct_try.
  rewrite (input_guard _ Hin), Hc. simpl.
  split; [ eexists; split; reflexivity | reflexivity ].
Qed.

(** X3. With a request that has an input and a configured project, a URL or
    a key that is absent, empty or a placeholder gets
    PLACEHOLDER_CREDENTIALS without an invocation, also when the key is a
    publishable key. *)
Theorem analyzeProduct_placeholder_credentials env options :
  opt_truthy (Options.barcode options) || opt_truthy (Options.code options)
  || opt_truthy (Options.imageUri options) = true ->
  isSupabaseConfigured env = true ->
  (EXPO_PUBLIC_SUPABASE_URL env = None
   \/ EXPO_PUBLIC_SUPABASE_ANON_KEY env = None
   \/ urlIsPlaceholder env = true
   \/ keyIsPlaceholder env = true) ->
  (exists e, outcome (analyzeProduct env options) = inl (AI e)
             /\ AIAnalysisError.code e = Some "PLACEHOLDER_CREDENTIALS")
  /\ trace (analyzeProduct env options) = [].
Proof.
  intros Hin Hc Hp.
  assert (H : urlIsPlaceholder env || keyIsPlaceholder env = true).
  { destruct Hp as [Hu | [Hk | [Hu | Hk]]].
    - unfold urlIsPlaceholder, supabaseUrl. now rewrite Hu.
    - unfold keyIsPlaceholder, supabaseKey. rewrite Hk. apply orb_true_r.
    - now rewrite Hu.
    - rewrite Hk. apply orb_true_r. }
  unfold AiAnalysis.analyzeProduct, analyzeProduct_try.
  rewrite (input_guard _ Hin), Hc, H. simpl.
  split; [ eexists; split; reflexivity | reflexivity ].
Qed.

(** *** What the endpoint answers *)


(** X5. An answer without a transport error and with a falsy payload
    ([null], [undefined], an empty string, 0, [false]) is thrown as
    NO_RESPONSE. *)
Theorem analyzeProduct_no_response env options fn body data :
  In (Invoke fn body) (trace (analyzeProduct env options)) ->
  functions_invoke env fn body = Resolved data None ->
  truthy data = false ->
  exists e,
    outcome (analyzeProduct env options) = inl (AI e)
    /\ AIAnalysisError.code e = Some "NO_RESPONSE"
    /\ AIAnalysisError.originalError e = NoCause.
Proof.
  intros Hin Hi Hd. rewrite (answered _ _ _ _ _ _ Hin Hi).
  unfold AiAnalysis.onResponse. rewrite Hd.
  eexists. repeat split.
Qed.

(** X6. When the invocation itself rejects, the error is wrapped as
    UNKNOWN_ERROR with what was thrown as its cause, and with the message of
    the [Error] when it is one. *)
Theorem analyzeProduct_rejection_is_wrapped env options fn body f :
  In (Invoke fn body) (trace (analyzeProduct env options)) ->
  functions_invoke env fn body = Rejected f ->
  exists e,
    outcome (analyzeProduct env options) = inl (AI e)
    /\ AIAnalysisError.code e = Some "UNKNOWN_ERROR"
    /\ AIAnalysisError.originalError e = CauseForeign f
    /\ (forall m, f = ForeignError m -> AIAnalysisError.message e = m)
    /\ (forall v, f = ForeignValue v ->
        AIAnalysisError.message e = "Unknown error occurred during analysis").
Proof.
  intros Hin Hi.
  apply (invoked_reaches JSON_parse Date_parse now ToString) in Hin as (Hr & -> & ->).
  destruct (analyzeProduct_rejected JSON_parse Date_parse now ToString _ _ _ Hr Hi) as [_ ->].
  eexists. split; [ reflexivity | ]. simpl.
  repeat split; intros ? ->; reflexivity.
Qed.

(** *** A transport error *)

Lemma transport_error_ends env options fn body data error :
  In (Invoke fn body) (trace (analyzeProduct env options)) ->
  functions_invoke env fn body = Resolved data (Some error) ->
  exists errorBody,
    extractErrorBody error = ret errorBody
    /\ ((exists r, outcome (analyzeProduct env options) = inr r
                   /\ manualEntryRequired r = JBool true)
        \/ (exists m c,
              in_vocabulary c = true
              /\ (not_set errorBody = true ->
                  m = "Failed to analyze product" /\ c = "UNKNOWN_ERROR")
              /\ outcome (analyzeProduct env options) =
                 inl (mkError
                        (finalMessage error
                                 (fst (applyStatus (errorStatusOf error) errorBody m c)))
                        (snd (applyStatus (errorStatusOf error) errorBody m c))
                        (CauseFunctions error)))).
Proof.
  intros Hin Hi. rewrite (answered _ _ _ _ _ _ Hin Hi). cbn [AiAnalysis.onResponse].
  destruct (onInvokeError_ends error)
    as (errorBody & Hx & [(r & -> & Hr) | (m & c & Hc & Hd & ->)]);
    exists errorBody; (split; [ exact Hx | ]).
  - left. now exists r.
  - right. exists m, c. repeat split; auto; apply Hd; assumption.
Qed.

(** X7. At the statuses 401, 400, 502 and 503 the code of a thrown
    transport error is the code of the status (AUTH_FAILED, INVALID_REQUEST,
    SERVICE_UNAVAILABLE), whatever the body says; the only other way such a
    run ends is with a result flagged for manual entry. *)
Theorem analyzeProduct_status_overrides_body env options fn body data error c :
  In (Invoke fn body) (trace (analyzeProduct env options)) ->
  functions_invoke env fn body = Resolved data (Some error) ->
  (errorStatusOf error = Some 401 /\ c = "AUTH_FAILED")
  \/ (errorStatusOf error = Some 400 /\ c = "INVALID_REQUEST")
  \/ (errorStatusOf error = Some 502 /\ c = "SERVICE_UNAVAILABLE")
  \/ (errorStatusOf error = Some 503 /\ c = "SERVICE_UNAVAILABLE") ->
  (exists r, outcome (analyzeProduct env options) = inr r
             /\ manualEntryRequired r = JBool true)
  \/ (exists e, outcome (analyzeProduct env options) = inl (AI e)
                /\ AIAnalysisError.code e = Some c
                /\ AIAnalysisError.originalError e = CauseFunctions error).
Proof.
  intros Hin Hi Hs.
  destruct (transport_error_ends _ _ _ _ _ _ Hin Hi)
    as (errorBody & _ & [Hr | (m & c' & _ & _ & ->)]); [ now left | right ].
  eexists. split; [ reflexivity | ]. simpl. unfold applyStatus.
  destruct Hs as [[-> ->] | [[-> ->] | [[-> ->] | [-> ->]]]]; now split.
Qed.

(** X8. A transport error at status 500 from which no body can be read is
    thrown as SERVER_ERROR. *)
Theorem analyzeProduct_server_error_without_body env options fn body data error :
  In (Invoke fn body) (trace (analyzeProduct env options)) ->
  functions_invoke env fn body = Resolved data (Some error) ->
  errorStatusOf error = Some 500 ->
  outcome (extractErrorBody error) = inr None
  \/ outcome (extractErrorBody error) = inr (Some "") ->
  exists e,
    outcome (analyzeProduct env options) = inl (AI e)
    /\ AIAnalysisError.code e = Some "SERVER_ERROR"
    /\ AIAnalysisError.message e
       = "Server error occurred. Please try again or enter details manually.".
Proof.
  intros Hin Hi Hs Hx. rewrite (answered _ _ _ _ _ _ Hin Hi). cbn [AiAnalysis.onResponse].
  unfold AiAnalysis.onInvokeError.
  destruct Hx as [Hx | Hx];
    apply silent_value in Hx; try apply extractErrorBody_silent;
    rewrite Hx, bind_ret_l; cbn [nonempty]; rewrite bind_ret_l;
    unfold applyStatus; rewrite Hs; eexists; repeat split.
Qed.

Lemma finalMessage_table error errorMsg :
  finalMessage error (fst (classifyErrorMsg errorMsg)) = fst (classifyErrorMsg errorMsg).
Proof.
  unfold classifyErrorMsg.
  repeat match goal with |- context [if ?b then _ else _] => destruct b end; reflexivity.
Qed.

(** X9. At any other status, a transport error whose body parses to a value
    with a non-empty [error] text (and without [manualEntryRequired: true])
    is thrown with the code and the message that the table of lines 210-228
    gives for the lower-cased text; status 500 does not override them. *)
Theorem analyzeProduct_error_text_classified
  env options fn body data error errorBody errorJson text :
  In (Invoke fn body) (trace (analyzeProduct env options)) ->
  functions_invoke env fn body = Resolved data (Some error) ->
  outcome (extractErrorBody error) = inr (Some errorBody) ->
  errorBody <> "" ->
  JSON_parse errorBody = Some errorJson ->
  prop errorJson "manualEntryRequired" <> JBool true ->
  prop errorJson "error" = JStr text ->
  text <> "" ->
  errorStatusOf error <> Some 401 ->
  errorStatusOf error <> Some 400 ->
  errorStatusOf error <> Some 502 ->
  errorStatusOf error <> Some 503 ->
  exists e,
    outcome (analyzeProduct env options) = inl (AI e)
    /\ AIAnalysisError.code e = Some (snd (classifyErrorMsg (toLowerCase text)))
    /\ AIAnalysisError.message e = fst (classifyErrorMsg (toLowerCase text)).
Proof.
  intros Hin Hi Hx Hne Hp Hm He Ht S401 S400 S502 S503.
  rewrite (answered _ _ _ _ _ _ Hin Hi). cbn [AiAnalysis.onResponse].
  pose proof (interpretErrorBody_error_text JSON_parse Date_parse now errorBody
                "Failed to analyze product" "UNKNOWN_ERROR" errorJson text Hp Hm He Ht) as Hf.
  rewrite (onInvokeError_flow JSON_parse Date_parse now _ _ _ Hx Hne Hf).
  unfold applyStatus.
  rewrite (status_is_false _ _ S401), (status_is_false _ _ S400),
    (status_is_false _ _ S502), (status_is_false _ _ S503).
  assert (Hset : not_set (Some errorBody) = false) by (now destruct errorBody).
  rewrite Hset, andb_false_r. cbn [orb fst snd].
  rewrite finalMessage_table,
    (in_vocabulary_nonempty _ (classifyErrorMsg_vocabulary (toLowerCase text))).
  eexists. repeat split.
Qed.

(** X10. A body that is not JSON and is shorter than 200 code units becomes
    the message of the error as it is, with code UNKNOWN_ERROR, at every
    status but 401, 400, 502 and 503. *)
Theorem analyzeProduct_plain_text_body env options fn body data error errorBody :
  In (Invoke fn body) (trace (analyzeProduct env options)) ->
  functions_invoke env fn body = Resolved data (Some error) ->
  outcome (extractErrorBody error) = inr (Some errorBody) ->
  errorBody <> "" ->
  JSON_parse errorBody = None ->
  (String.length errorBody < 200)%nat ->
  errorBody <> "Failed to analyze product" ->
  errorStatusOf error <> Some 401 ->
  errorStatusOf error <> Some 400 ->
  errorStatusOf error <> Some 502 ->
  errorStatusOf error <> Some 503 ->
  exists e,
    outcome (analyzeProduct env options) = inl (AI e)
    /\ AIAnalysisError.code e = Some "UNKNOWN_ERROR"
    /\ AIAnalysisError.message e = errorBody.
Proof.
  intros Hin Hi Hx Hne Hp Hlen Hnot S401 S400 S502 S503.
  rewrite (answered _ _ _ _ _ _ Hin Hi). cbn [AiAnalysis.onResponse].
  assert (Hf : interpretErrorBody errorBody "Failed to analyze product" "UNKNOWN_ERROR"
               = ret (Continue errorBody "UNKNOWN_ERROR")).
  { unfold AiAnalysis.interpretErrorBody, parse. rewrite Hp, bind_throw_l, try_catch_throw.
    apply Nat.ltb_lt in Hlen. now rewrite Hlen. }
  rewrite (onInvokeError_flow JSON_parse Date_parse now _ _ _ Hx Hne Hf).
  unfold applyStatus.
  rewrite (status_is_false _ _ S401), (status_is_false _ _ S400),
    (status_is_false _ _ S502), (status_is_false _ _ S503).
  assert (Hset : not_set (Some errorBody) = false) by (now destruct errorBody).
  rewrite Hset, andb_false_r. cbn [orb fst snd str_or nonempty].
  unfold finalMessage.
  assert (Hn : nonempty errorBody = true) by (now destruct errorBody).
  apply String.eqb_neq in Hnot. rewrite Hn, Hnot. cbn [negb orb].
  eexists. repeat split.
Qed.

(** X11. A result returned although the invocation ended with a transport
    error is always flagged for manual entry. *)
Theorem analyzeProduct_result_after_error_is_flagged env options fn body data error r :
  In (Invoke fn body) (trace (analyzeProduct env options)) ->
  functions_invoke env fn body = Resolved data (Some error) ->
  outcome (analyzeProduct env options) = inr r ->
  manualEntryRequired r = JBool true.
Proof.
  intros Hin Hi Ho.
  destruct (transport_error_ends _ _ _ _ _ _ Hin Hi)
    as (errorBody & _ & [(r' & Hr & Hf) | (m & c & _ & _ & Hr)]);
    rewrite Hr in Ho; [ | discriminate Ho ].
  now inversion Ho; subst.
Qed.

Lemma finalMessage_nonempty error m : finalMessage error m <> "".
Proof.
  unfold finalMessage.
  destruct (nonempty m) eqn:Hn; cbn [negb orb].
  - destruct (String.eqb m "Failed to analyze product") eqn:He.
    + destruct (FunctionsError.message error) as [m' |]; [ | discriminate ].
      destruct (includes m' "non-2xx"); [ discriminate | ].
      destruct (nonempty m') eqn:Hn'; cbn [andb]; [ | discriminate ].
      destruct (String.length m' <? 100)%nat; [ | discriminate ].
      now destruct m'.
    + now destruct m.
  - destruct (FunctionsError.message error) as [m' |]; [ | discriminate ].
    destruct (includes m' "non-2xx"); [ discriminate | ].
    destruct (nonempty m') eqn:Hn'; cbn [andb]; [ | discriminate ].
    destruct (String.length m' <? 100)%nat; [ | discriminate ].
    now destruct m'.
Qed.

(** X12. Every error thrown for a transport error carries a non-empty text
    as its message and the transport error itself as its cause. *)
Theorem analyzeProduct_transport_error_message env options fn body data error x :
  In (Invoke fn body) (trace (analyzeProduct env options)) ->
  functions_invoke env fn body = Resolved data (Some error) ->
  outcome (analyzeProduct env options) = inl x ->
  exists e m,
    x = AI e
    /\ AIAnalysisError.message e = m
    /\ m <> ""
    /\ AIAnalysisError.originalError e = CauseFunctions error.
Proof.
  intros Hin Hi Ho.
  destruct (transport_error_ends _ _ _ _ _ _ Hin Hi)
    as (errorBody & _ & [(r' & Hr & Hf) | (m & c & _ & _ & Hr)]);
    rewrite Hr in Ho; [ discriminate Ho | ].
  inversion Ho; subst. eexists. eexists.
  split; [ reflexivity | ]. simpl.
  split; [ reflexivity | ]. split; [ apply finalMessage_nonempty | reflexivity ].
Qed.

(** *** Reading the body of a transport error *)

(** X13. When the response of a transport error has an unread body blob
    whose text is not empty, that text is the extracted body, whatever the
    message and the other members of the error hold. *)
Theorem extractErrorBody_blob_first error c s :
  FunctionsError.context error = Some c ->
  Context._bodyBlob c = Some (TextOk s) ->
  Context.bodyUsed c = false ->
  s <> "" ->
  extractErrorBody error = ret (Some s).
Proof.
  intros Hc Hb Hu Hs.
  unfold extractErrorBody, context_bodyBlob, context_bodyUsed, context_bodyInit_data,
    context_body.
  rewrite Hc, Hb, Hu. destruct s as [| a s']; [ congruence | ].
  cbn [negb text]. rewrite bind_ret_l, try_catch_ret, bind_ret_l.
  destruct (Context._bodyInit c) as [i |]; [ destruct (_data i) | ];
    cbn [not_set opt_truthy nonempty negb]; rewrite bind_ret_l;
    destruct (FunctionsError.message error) as [m |]; cbn [andb];
    destruct (Context.body c) as [[b | b |] |]; try destruct (nonempty b);
    reflexivity.
Qed.

(** X14. Body reads that reject are swallowed: when the blob and the
    [Response] built from [_bodyInit] both fail to give their text, nothing
    is thrown and the message of the error, if it is not empty and not the
    generic "non-2xx" message, is the extracted body. *)
Theorem extractErrorBody_failed_reads_fall_back error c i m :
  FunctionsError.context error = Some c ->
  Context._bodyBlob c = Some TextFails ->
  Context._bodyInit c = Some i ->
  responseText i = TextFails ->
  FunctionsError.message error = Some m ->
  m <> "" ->
  m <> "Edge Function returned a non-2xx status code" ->
  extractErrorBody error = ret (Some m).
Proof.
  intros Hc Hb Hi Ht Hm Hne Hg.
  unfold extractErrorBody, context_bodyBlob, context_bodyUsed, context_bodyInit_data,
    context_body.
  rewrite Hc, Hb, Hi, Hm.
  apply String.eqb_neq in Hg.
  destruct m as [| a m']; [ congruence | ].
  assert (Hstep1 :
    (if negb (Context.bodyUsed c)
     then try_catch (bodyText <- text TextFails ;; ret (Some bodyText))
            (fun _ => ret (E:=Call) (X:=Thrown) (@None string))
     else ret None) = ret None) by (now destruct (Context.bodyUsed c)).
  rewrite Hstep1, bind_ret_l.
  assert (Hstep2 :
    match (if _data i then Some i else None) with
    | Some init =>
        if not_set None
        then try_catch (bodyText <- text (responseText init) ;; ret (Some bodyText))
               (fun _ => ret (E:=Call) (X:=Thrown) (@None string))
        else ret None
    | None => ret None
    end = ret None) by (destruct (_data i); [ now rewrite Ht | reflexivity ]).
  rewrite Hstep2, bind_ret_l.
  cbn [not_set opt_truthy nonempty negb andb]. rewrite Hg. cbn [negb].
  destruct (Context.body c) as [[b | b |] |]; try destruct (nonempty b); reflexivity.
Qed.

(** *** The shelf life *)

(** X15. For an expiry date that parses, the shelf life is the least number
    of whole days that reaches the expiry from now: [d] with
    [(d - 1) days < expiry - now <= d days] (so 0 for an expiry less than a
    day ago, and negative only from a full day past expiry). *)
Theorem calculateShelfLifeDays_is_ceiling s tv :
  s <> "" ->
  Date_parse s = Int tv ->
  exists d,
    calculateShelfLifeDays (JStr s) = ret (Int d)
    /\ (d - 1) * msPerDay < tv - now <= d * msPerDay.
Proof.
  intros Hs Hp. rewrite (calculateShelfLifeDays_string _ _ _ Hs), Hp.
  eexists. split; [ reflexivity | ].
  change msPerDay with 86400000.
  pose proof (Z.div_mod (- (tv - now)) 86400000 ltac:(lia)) as Hd.
  pose proof (Z.mod_pos_bound (- (tv - now)) 86400000 ltac:(lia)) as Hb.
  lia.
Qed.

(** X16. The shelf life does not decrease when the expiry moves later. *)
Theorem calculateShelfLifeDays_monotone t1 t2 d1 d2 :
  calculateShelfLifeDays (JDate (Int t1)) = ret (Int d1) ->
  calculateShelfLifeDays (JDate (Int t2)) = ret (Int d2) ->
  t1 <= t2 ->
  d1 <= d2.
Proof.
  rewrite !calculateShelfLifeDays_Date. cbn [sub ceil_div].
  intros H1 H2 Hle. inversion H1. inversion H2.
  change msPerDay with 86400000.
  pose proof (Z.div_le_mono (- (t2 - now)) (- (t1 - now)) 86400000 ltac:(lia) ltac:(lia)).
  lia.
Qed.

(** X17. A truthy expiry that is neither a string nor a [Date] (a number, a
    boolean, an array, an object) has no [getTime]: the [TypeError] is
    caught and the shelf life is the default 7, as for a falsy expiry. *)
Theorem calculateShelfLifeDays_default v :
  (forall s, v <> JStr s \/ s = "") ->
  (forall tv, v <> JDate tv) ->
  calculateShelfLifeDays v = ret (Int 7).
Proof.
  intros Hs Hd. destruct v as [| | b | q | s | items | props | tv]; try reflexivity.
  - now destruct b.
  - unfold AiAnalysis.calculateShelfLifeDays. now destruct (truthy (JNum q)).
  - destruct (Hs s) as [H | ->]; [ congruence | reflexivity ].
  - now destruct (Hd tv).
Qed.

(** *** What a run returns *)

Lemma get_truthy data k : truthy data = true -> get data k = ret (prop data k).
Proof. now destruct data. Qed.

Lemma onResponse_returns data :
  truthy data = true ->
  truthy (prop data "error") = false ->
  exists n,
    calculateShelfLifeDays (prop data "expiryDate") = ret n
    /\ onResponse data None =
       ret {| name := or_else (prop data "productName")
                        (or_else (prop data "name") (JStr "Unknown Product"));
              category := or_else (prop data "category") (JStr "General");
              shelfLifeDays := n;
              confidenceScore := or_else (prop data "confidenceScore") (JNum 0);
              expiryDate := prop data "expiryDate";
              manualEntryRequired :=
                or_else (prop data "manualEntryRequired") (JBool false) |}.
Proof.
  intros Hd He.
  destruct (calculateShelfLifeDays_returns Date_parse now (prop data "expiryDate")) as [n Hn].
  exists n. split; [ exact Hn | ].
  unfold AiAnalysis.onResponse. rewrite Hd. cbn [negb].
  rewrite !(get_truthy _ _ Hd), bind_ret_l, He.
  rewrite !bind_ret_l, Hn, !bind_ret_l.
  now destruct (truthy (prop data "manualEntryRequired")).
Qed.

(** X18. A truthy payload without a truthy [error] member always gives a
    result, and when it has none of the members the result is made of the
    defaults: "Unknown Product", "General", 7 days, confidence 0, not
    flagged. *)
Theorem analyzeProduct_defaults env options fn body data :
  In (Invoke fn body) (trace (analyzeProduct env options)) ->
  functions_invoke env fn body = Resolved data None ->
  truthy data = true ->
  truthy (prop data "error") = false ->
  truthy (prop data "productName") = false ->
  truthy (prop data "name") = false ->
  truthy (prop data "category") = false ->
  truthy (prop data "expiryDate") = false ->
  truthy (prop data "confidenceScore") = false ->
  truthy (prop data "manualEntryRequired") = false ->
  outcome (analyzeProduct env options)
  = inr {| name := JStr "Unknown Product";
           category := JStr "General";
           shelfLifeDays := Int 7;
           confidenceScore := JNum 0;
           expiryDate := prop data "expiryDate";
           manualEntryRequired := JBool false |}.
Proof.
  intros Hin Hi Hd He Hpn Hn Hc Hx Hs Hm.
  rewrite (answered _ _ _ _ _ _ Hin Hi).
  destruct (onResponse_returns data Hd He) as (n & Hcalc & ->).
  unfold AiAnalysis.calculateShelfLifeDays in Hcalc. rewrite Hx in Hcalc.
  inversion Hcalc. unfold or_else. now rewrite Hpn, Hn, Hc, Hs, Hm.
Qed.

(** X19. A payload whose [expiryDate] is a non-empty text that is no date
    still gives a result; its shelf life is NaN, not the default. *)
Theorem analyzeProduct_unparsable_expiry env options fn body data s :
  In (Invoke fn body) (trace (analyzeProduct env options)) ->
  functions_invoke env fn body = Resolved data None ->
  truthy (prop data "error") = false ->
  prop data "expiryDate" = JStr s ->
  s <> "" ->
  Date_parse s = NaN ->
  exists r,
    outcome (analyzeProduct env options) = inr r
    /\ shelfLifeDays r = NaN
    /\ expiryDate r = JStr s.
Proof.
  intros Hin Hi He Hx Hs Hp.
  rewrite (answered _ _ _ _ _ _ Hin Hi).
  assert (Hd : truthy data = true) by (destruct data; try discriminate Hx; reflexivity).
  destruct (onResponse_returns data Hd He) as (n & Hcalc & ->).
  rewrite Hx, (calculateShelfLifeDays_string _ _ _ Hs), Hp in Hcalc.
  inversion Hcalc. eexists. split; [ reflexivity | ]. simpl. now rewrite Hx.
Qed.

(** The members every result has, whichever path built it. *)
Local Abbreviation filled :=
  (fun r : ProductAnalysisResult =>
     truthy (name r) = true
     /\ truthy (category r) = true
     /\ (truthy (confidenceScore r) = true \/ confidenceScore r = JNum 0)
     /\ (truthy (manualEntryRequired r) = true \/ manualEntryRequired r = JBool false)).

Lemma or_else_default a b : truthy (or_else a b) = true \/ or_else a b = b.
Proof. unfold or_else. destruct (truthy a) eqn:Ha; auto. Qed.

Lemma interpretErrorBody_filled errorBody m c :
  ensures (fun flow => match flow with
                       | Return r => filled r
                       | Continue _ _ => True
                       end)
          (fun _ => True) (interpretErrorBody errorBody m c).
Proof.
  unfold AiAnalysis.interpretErrorBody, parse, get, call_toLowerCase.
  repeat flow_step; simpl;
    auto using or_else_truthy, or_else_default.
  all: repeat split; auto using or_else_truthy, or_else_default.
Qed.

Lemma onInvokeError_filled error :
  ensures filled (fun _ => True) (onInvokeError error).
Proof.
  unfold AiAnalysis.onInvokeError.
  destruct (extractErrorBody_returns error) as [errorBody ->]. rewrite bind_ret_l.
  apply ensures_bind.
  eapply ensures_weaken; [ | | intros x Hx; exact Hx ].
  - destruct errorBody as [b |]; [ destruct (nonempty b) | ];
      [ apply interpretErrorBody_filled | | ];
      apply (ensures_ret
               (fun flow => match flow with Return r => filled r | Continue _ _ => True end)
               (fun _ => True)); exact I.
  - intros [r | m c] Hf; [ now apply ensures_ret | now apply ensures_throw ].
Qed.

Lemma onResponse_filled data error :
  ensures filled (fun _ => True) (onResponse data error).
Proof.
  destruct error as [error |]; [ apply onInvokeError_filled | ].
  destruct (truthy data) eqn:Hd.
  - destruct (truthy (prop data "error")) eqn:He.
    + unfold AiAnalysis.onResponse. rewrite Hd. cbn [negb].
      rewrite (get_truthy _ _ Hd), bind_ret_l, He. now apply ensures_throw.
    + destruct (onResponse_returns data Hd He) as (n & _ & ->).
      apply ensures_ret. cbn.
      repeat split; auto using or_else_truthy, or_else_default.
  - unfold AiAnalysis.onResponse. rewrite Hd. now apply ensures_throw.
Qed.

(** X20. Every result [analyzeProduct] returns, from a payload or from the
    body of a transport error, has a truthy name and a truthy category; its
    confidence score is truthy or exactly 0 and its flag is truthy or
    exactly [false]. *)
Theorem analyzeProduct_result_is_filled env options r :
  outcome (analyzeProduct env options) = inr r ->
  truthy (name r) = true
  /\ truthy (category r) = true
  /\ (truthy (confidenceScore r) = true \/ confidenceScore r = JNum 0)
  /\ (truthy (manualEntryRequired r) = true \/ manualEntryRequired r = JBool false).
Proof.
  intros Ho.
  assert (H : ensures filled (fun _ => True) (analyzeProduct env options)).
  { unfold AiAnalysis.analyzeProduct, analyzeProduct_try.
    destruct (negb _ && negb _); [ now apply ensures_throw | ].
    apply ensures_try_catch.
    destruct (isSupabaseConfigured env); cbn [negb]; [ | now apply ensures_throw ].
    destruct (urlIsPlaceholder env || keyIsPlaceholder env); [ now apply ensures_throw | ].
    destruct (keyIsPublishable env && negb (keyIsJWT env)); [ now apply ensures_throw | ].
    apply ensures_bind. unfold invoke.
    destruct (functions_invoke env _ _) as [data error | f]; [ | now destruct f ].
    unfold ensures at 1. cbn.
    apply ensures_weaken with (1 := onResponse_filled data error); [ easy | ].
    intros [e | f] _; [ exact I | now destruct f ]. }
  unfold ensures in H. now rewrite Ho in H.
Qed.

(** *** The two convenience functions *)

(** X21. Whatever [analyzeProductFromBarcode] sends to the endpoint is its
    argument as the code, without an image; with an empty argument it sends
    nothing. *)
Theorem analyzeProductFromBarcode_sends_the_barcode env barcode call :
  In call (trace (analyzeProductFromBarcode env barcode)) ->
  barcode <> ""
  /\ call = Invoke "analyze-product" {| Request.code := barcode; Request.imageUri := None |}.
Proof.
  unfold AiAnalysis.analyzeProductFromBarcode.
  rewrite (analyzeProduct_trace JSON_parse Date_parse now ToString).
  destruct barcode as [| a b'].
  - intros []. 
  - destruct (reachesEndpoint env _); simpl; [ | intros [] ].
    intros [<- | []]. split; [ discriminate | reflexivity ].
Qed.

(** X22. Whatever [analyzeProductFromImage] sends to the endpoint has the
    empty string as its code and the argument as its image; with an empty
    argument it sends nothing. *)
Theorem analyzeProductFromImage_sends_an_empty_code env imageUri call :
  In call (trace (analyzeProductFromImage env imageUri)) ->
  imageUri <> ""
  /\ call = Invoke "analyze-product"
              {| Request.code := ""; Request.imageUri := Some imageUri |}.
Proof.
  unfold AiAnalysis.analyzeProductFromImage.
  rewrite (analyzeProduct_trace JSON_parse Date_parse now ToString).
  destruct imageUri as [| a b'].
  - intros [].
  - destruct (reachesEndpoint env _); simpl; [ | intros [] ].
    intros [<- | []]. split; [ discriminate | reflexivity ].
Qed.

End More.

(** *** The theorems on sample runs *)

Local Abbreviation run := (analyzeProduct Samples.JSON_parse Samples.Date_parse Samples.now Samples.ToString).
Local Abbreviation answering := (Samples.env_with Samples.jwt_key).
Local Abbreviation request123 :=
  {| Request.code := "123456"; Request.imageUri := None |}.

Lemma analyzeProduct_not_configured_witness :
  (exists e, outcome (run Samples.env_unconfigured (Samples.scan "123456")) = inl (AI e)
             /\ AIAnalysisError.code e = Some "NOT_CONFIGURED")
  /\ trace (run Samples.env_unconfigured (Samples.scan "123456")) = [].
Proof.
  apply (analyzeProduct_not_configured Samples.JSON_parse Samples.Date_parse Samples.now Samples.ToString);
    reflexivity.
Defined.

Lemma analyzeProduct_placeholder_credentials_witness :
  (exists e, outcome (run Samples.env_template (Samples.scan "123456")) = inl (AI e)
             /\ AIAnalysisError.code e = Some "PLACEHOLDER_CREDENTIALS")
  /\ trace (run Samples.env_template (Samples.scan "123456")) = [].
Proof.
  apply (analyzeProduct_placeholder_credentials
           Samples.JSON_parse Samples.Date_parse Samples.now Samples.ToString);
    [ reflexivity | reflexivity | right; right; left; reflexivity ].
Defined.


Lemma analyzeProduct_no_response_witness :
  exists e,
    outcome (run (answering (Resolved JNull None)) (Samples.scan "123456")) = inl (AI e)
    /\ AIAnalysisError.code e = Some "NO_RESPONSE"
    /\ AIAnalysisError.originalError e = NoCause.
Proof.
  apply (analyzeProduct_no_response Samples.JSON_parse Samples.Date_parse Samples.now Samples.ToString
           (answering (Resolved JNull None)) (Samples.scan "123456")
           "analyze-product" request123 JNull).
  - vm_compute. left. reflexivity.
  - reflexivity.
  - reflexivity.
Defined.

Lemma analyzeProduct_rejection_is_wrapped_witness :
  exists e,
    outcome (run (answering (Rejected (ForeignError "Network request failed")))
                 (Samples.scan "123456")) = inl (AI e)
    /\ AIAnalysisError.code e = Some "UNKNOWN_ERROR"
    /\ AIAnalysisError.message e = "Network request failed".
Proof.
  destruct (analyzeProduct_rejection_is_wrapped
              Samples.JSON_parse Samples.Date_parse Samples.now Samples.ToString
              (answering (Rejected (ForeignError "Network request failed")))
              (Samples.scan "123456") "analyze-product" request123
              (ForeignError "Network request failed"))
    as (e & Ho & Hc & _ & Hm & _).
  - vm_compute. left. reflexivity.
  - reflexivity.
  - exists e. split; [ exact Ho | split; [ exact Hc | apply Hm; reflexivity ] ].
Defined.

Lemma analyzeProduct_status_overrides_body_witness :
  (exists r,
      outcome (run (answering (Resolved JNull
                                 (Some (Samples.http_error 503 Samples.body_rate_limit))))
                   (Samples.scan "123456")) = inr r
      /\ manualEntryRequired r = JBool true)
  \/ (exists e,
        outcome (run (answering (Resolved JNull
                                   (Some (Samples.http_error 503 Samples.body_rate_limit))))
                     (Samples.scan "123456")) = inl (AI e)
        /\ AIAnalysisError.code e = Some "SERVICE_UNAVAILABLE"
        /\ AIAnalysisError.originalError e
           = CauseFunctions (Samples.http_error 503 Samples.body_rate_limit)).
Proof.
  apply (analyzeProduct_status_overrides_body
           Samples.JSON_parse Samples.Date_parse Samples.now Samples.ToString
           (answering (Resolved JNull (Some (Samples.http_error 503 Samples.body_rate_limit))))
           (Samples.scan "123456") "analyze-product" request123 JNull
           (Samples.http_error 503 Samples.body_rate_limit)).
  - vm_compute. left. reflexivity.
  - reflexivity.
  - right. right. right. split; reflexivity.
Defined.

Lemma analyzeProduct_server_error_without_body_witness :
  exists e,
    outcome (run (answering (Resolved JNull (Some Samples.error_500_bare)))
                 (Samples.scan "123456")) = inl (AI e)
    /\ AIAnalysisError.code e = Some "SERVER_ERROR"
    /\ AIAnalysisError.message e
       = "Server error occurred. Please try again or enter details manually.".
Proof.
  apply (analyzeProduct_server_error_without_body
           Samples.JSON_parse Samples.Date_parse Samples.now Samples.ToString
           (answering (Resolved JNull (Some Samples.error_500_bare)))
           (Samples.scan "123456") "analyze-product" request123 JNull
           Samples.error_500_bare).
  - vm_compute. left. reflexivity.
  - reflexivity.
  - reflexivity.
  - left. reflexivity.
Defined.

Lemma analyzeProduct_error_text_classified_witness :
  exists e,
    outcome (run (answering (Resolved JNull
                               (Some (Samples.http_error 500 Samples.body_invalid_rate_limit))))
                 (Samples.scan "123456")) = inl (AI e)
    /\ AIAnalysisError.code e = Some "AI_AUTH_FAILED"
    /\ AIAnalysisError.message e
       = "AI service authentication failed. Please try again later.".
Proof.
  apply (analyzeProduct_error_text_classified
           Samples.JSON_parse Samples.Date_parse Samples.now Samples.ToString
           (answering (Resolved JNull
                         (Some (Samples.http_error 500 Samples.body_invalid_rate_limit))))
           (Samples.scan "123456") "analyze-product" request123 JNull
           (Samples.http_error 500 Samples.body_invalid_rate_limit)
           Samples.body_invalid_rate_limit
           (JObj [("error", JStr "invalid rate limit header")]) "invalid rate limit header");
    try reflexivity; try discriminate.
  vm_compute. left. reflexivity.
Defined.

Lemma analyzeProduct_plain_text_body_witness :
  exists e,
    outcome (run (answering (Resolved JNull
                               (Some (Samples.http_error 404 "Function not found"))))
                 (Samples.scan "123456")) = inl (AI e)
    /\ AIAnalysisError.code e = Some "UNKNOWN_ERROR"
    /\ AIAnalysisError.message e = "Function not found".
Proof.
  apply (analyzeProduct_plain_text_body
           Samples.JSON_parse Samples.Date_parse Samples.now Samples.ToString
           (answering (Resolved JNull (Some (Samples.http_error 404 "Function not found"))))
           (Samples.scan "123456") "analyze-product" request123 JNull
           (Samples.http_error 404 "Function not found"));
    try reflexivity; try discriminate.
  - vm_compute. left. reflexivity.
  - apply Nat.ltb_lt. reflexivity.
Defined.

Lemma analyzeProduct_result_after_error_is_flagged_witness :
  outcome (run (answering (Resolved JNull (Some (Samples.http_error 500 Samples.body_manual))))
               (Samples.scan "123456"))
  = inr {| name := JStr "Oat Milk"; category := JStr "General"; shelfLifeDays := Int 7;
           confidenceScore := JNum 0; expiryDate := JStr "2024-12-31";
           manualEntryRequired := JBool true |}
  /\ manualEntryRequired
       {| name := JStr "Oat Milk"; category := JStr "General"; shelfLifeDays := Int 7;
          confidenceScore := JNum 0; expiryDate := JStr "2024-12-31";
          manualEntryRequired := JBool true |} = JBool true.
Proof.
  split; [ reflexivity | ].
  apply (analyzeProduct_result_after_error_is_flagged
           Samples.JSON_parse Samples.Date_parse Samples.now Samples.ToString
           (answering (Resolved JNull (Some (Samples.http_error 500 Samples.body_manual))))
           (Samples.scan "123456") "analyze-product" request123 JNull
           (Samples.http_error 500 Samples.body_manual)).
  - vm_compute. left. reflexivity.
  - reflexivity.
  - reflexivity.
Defined.

Lemma analyzeProduct_transport_error_message_witness :
  exists e m,
    mkError "Function not found" "UNKNOWN_ERROR"
            (CauseFunctions (Samples.http_error 404 "Function not found")) = AI e
    /\ AIAnalysisError.message e = m
    /\ m <> ""
    /\ AIAnalysisError.originalError e
       = CauseFunctions (Samples.http_error 404 "Function not found").
Proof.
  apply (analyzeProduct_transport_error_message
           Samples.JSON_parse Samples.Date_parse Samples.now Samples.ToString
           (answering (Resolved JNull (Some (Samples.http_error 404 "Function not found"))))
           (Samples.scan "123456") "analyze-product" request123 JNull
           (Samples.http_error 404 "Function not found")).
  - vm_compute. left. reflexivity.
  - reflexivity.
  - reflexivity.
Defined.

Lemma extractErrorBody_blob_first_witness :
  extractErrorBody (Samples.http_error 500 Samples.body_rate_limit)
  = ret (Some Samples.body_rate_limit).
Proof.
  eapply extractErrorBody_blob_first; [ reflexivity | reflexivity | reflexivity | discriminate ].
Defined.

Lemma extractErrorBody_failed_reads_fall_back_witness :
  extractErrorBody Samples.error_unreadable
  = ret (Some "Relay Error invoking the Edge Function").
Proof.
  eapply extractErrorBody_failed_reads_fall_back;
    [ reflexivity | reflexivity | reflexivity | reflexivity | reflexivity
    | discriminate | discriminate ].
Defined.

Lemma calculateShelfLifeDays_is_ceiling_witness :
  exists d,
    calculateShelfLifeDays Samples.Date_parse Samples.now (JStr "2024-12-31") = ret (Int d)
    /\ (d - 1) * msPerDay < 1735603200000 - Samples.now <= d * msPerDay.
Proof.
  apply (calculateShelfLifeDays_is_ceiling Samples.Date_parse Samples.now "2024-12-31");
    [ discriminate | reflexivity ].
Defined.

Lemma calculateShelfLifeDays_monotone_witness :
  calculateShelfLifeDays Samples.Date_parse Samples.now (JDate (Int 1734900000000))
  = ret (Int (-1))
  /\ calculateShelfLifeDays Samples.Date_parse Samples.now (JDate (Int 1735603200000))
     = ret (Int 7)
  /\ -1 <= 7.
Proof.
  split; [ reflexivity | split; [ reflexivity | ] ].
  apply (calculateShelfLifeDays_monotone Samples.Date_parse Samples.now
           1734900000000 1735603200000 (-1) 7);
    [ reflexivity | reflexivity | lia ].
Defined.

Lemma calculateShelfLifeDays_default_witness :
  calculateShelfLifeDays Samples.Date_parse Samples.now (JNum 1735603200000) = ret (Int 7).
Proof.
  apply calculateShelfLifeDays_default.
  - intros s. left. discriminate.
  - intros tv. discriminate.
Defined.

Lemma analyzeProduct_defaults_witness :
  outcome (run (answering (Resolved (JObj []) None)) (Samples.scan "123456"))
  = inr {| name := JStr "Unknown Product";
           category := JStr "General";
           shelfLifeDays := Int 7;
           confidenceScore := JNum 0;
           expiryDate := JUndefined;
           manualEntryRequired := JBool false |}.
Proof.
  apply (analyzeProduct_defaults Samples.JSON_parse Samples.Date_parse Samples.now Samples.ToString
           (answering (Resolved (JObj []) None)) (Samples.scan "123456")
           "analyze-product" request123 (JObj []));
    try reflexivity.
  vm_compute. left. reflexivity.
Defined.

Lemma analyzeProduct_unparsable_expiry_witness :
  exists r,
    outcome (run (answering (Resolved Samples.data_soon None)) (Samples.scan "123456")) = inr r
    /\ shelfLifeDays r = NaN
    /\ expiryDate r = JStr "soon".
Proof.
  apply (analyzeProduct_unparsable_expiry Samples.JSON_parse Samples.Date_parse Samples.now Samples.ToString
           (answering (Resolved Samples.data_soon None)) (Samples.scan "123456")
           "analyze-product" request123 Samples.data_soon "soon");
    try reflexivity; try discriminate.
  vm_compute. left. reflexivity.
Defined.

Lemma analyzeProduct_result_is_filled_witness :
  outcome (run (answering (Resolved Samples.data_milk None)) (Samples.scan "123456"))
  = inr {| name := JStr "Organic Milk"; category := JStr "Dairy"; shelfLifeDays := Int 7;
           confidenceScore := JNum (85 # 100); expiryDate := JStr "2024-12-31";
           manualEntryRequired := JBool false |}
  /\ truthy (JStr "Organic Milk") = true
  /\ truthy (JStr "Dairy") = true
  /\ (truthy (JNum (85 # 100)) = true \/ JNum (85 # 100) = JNum 0)
  /\ (truthy (JBool false) = true \/ JBool false = JBool false).
Proof.
  split; [ reflexivity | ].
  apply (analyzeProduct_result_is_filled Samples.JSON_parse Samples.Date_parse Samples.now Samples.ToString
           (answering (Resolved Samples.data_milk None)) (Samples.scan "123456")
           {| name := JStr "Organic Milk"; category := JStr "Dairy"; shelfLifeDays := Int 7;
              confidenceScore := JNum (85 # 100); expiryDate := JStr "2024-12-31";
              manualEntryRequired := JBool false |}).
  reflexivity.
Defined.

Lemma analyzeProductFromBarcode_sends_the_barcode_witness :
  trace (analyzeProductFromBarcode Samples.JSON_parse Samples.Date_parse Samples.now Samples.ToString
           (answering (Resolved Samples.data_milk None)) "123456")
  = [Invoke "analyze-product" request123]
  /\ "123456" <> ""
  /\ Invoke "analyze-product" request123
     = Invoke "analyze-product" {| Request.code := "123456"; Request.imageUri := None |}.
Proof.
  split; [ reflexivity | ].
  apply (analyzeProductFromBarcode_sends_the_barcode
           Samples.JSON_parse Samples.Date_parse Samples.now Samples.ToString
           (answering (Resolved Samples.data_milk None)) "123456").
  vm_compute. left. reflexivity.
Defined.

Lemma analyzeProductFromImage_sends_an_empty_code_witness :
  trace (analyzeProductFromImage Samples.JSON_parse Samples.Date_parse Samples.now Samples.ToString
           (answering (Resolved Samples.data_milk None)) "file:///photo.jpg")
  = [Invoke "analyze-product"
       {| Request.code := ""; Request.imageUri := Some "file:///photo.jpg" |}]
  /\ "file:///photo.jpg" <> ""
  /\ Invoke "analyze-product"
       {| Request.code := ""; Request.imageUri := Some "file:///photo.jpg" |}
     = Invoke "analyze-product"
         {| Request.code := ""; Request.imageUri := Some "file:///photo.jpg" |}.
Proof.
  split; [ reflexivity | ].
  apply (analyzeProductFromImage_sends_an_empty_code
           Samples.JSON_parse Samples.Date_parse Samples.now Samples.ToString
           (answering (Resolved Samples.data_milk None)) "file:///photo.jpg").
  vm_compute. left. reflexivity.
Defined.

End AiAnalysisMore.

(** ** Further properties of the manual-entry screen *)

Module ManualEntryMore.
Import Js ManualEntryScreen CompLaws ManualEntryProps.
Local Open Scope comp_scope.

Section More.
Variable Date_parse : string -> number.
Variable now : Z.

Local Abbreviation handleSubmit := (handleSubmit Date_parse now).

Lemma nonempty_true s : nonempty s = true <-> s <> "".
Proof. destruct s; simpl; split; congruence. Qed.

Lemma nonempty_false s : nonempty s = false <-> s = "".
Proof. destruct s; simpl; split; congruence. Qed.

Lemma str_or_nonempty a b : b <> "" -> str_or a b <> "".
Proof. unfold str_or. destruct a; simpl; congruence. Qed.

(** X23. A submission hands at most one record to the store: the record of
    the form when both the name and the expiry date are non-blank, and none
    otherwise. *)
Theorem handleSubmit_writes store_accepts props st :
  writes (trace (handleSubmit store_accepts props st))
  = if nonempty (trim (productName st)) && nonempty (trim (expiryDate st))
    then [itemOf st] else [].
Proof.
  destruct (nonempty (trim (productName st))) eqn:Hn;
    [ destruct (nonempty (trim (expiryDate st))) eqn:He | ]; cbn [andb].
  - apply nonempty_true in Hn, He.
    rewrite (handleSubmit_validated Date_parse now store_accepts props st Hn He).
    now destruct (store_accepts (itemOf st)).
  - apply nonempty_false in He.
    now destruct (handleSubmit_missing_information Date_parse now store_accepts props st
                    (or_intror He)) as (_ & -> & _).
  - apply nonempty_false in Hn.
    now destruct (handleSubmit_missing_information Date_parse now store_accepts props st
                    (or_introl Hn)) as (_ & -> & _).
Qed.

(** X24. Every record handed to the store has a non-empty trimmed name, a
    non-empty category and a non-empty barcode (the defaults "General" and
    "Manual Entry" fill the blanks), the expiry text exactly as it was
    typed, and confidence 1. *)
Theorem handleSubmit_written_record store_accepts props st item :
  In item (writes (trace (handleSubmit store_accepts props st))) ->
  Item.product_name item = trim (productName st)
  /\ Item.product_name item <> ""
  /\ Item.category item <> ""
  /\ Item.barcode item <> ""
  /\ Item.expiry_date item = expiryDate st
  /\ trim (Item.expiry_date item) <> ""
  /\ Item.ai_confidence item = 1%Q.
Proof.
  rewrite handleSubmit_writes.
  destruct (nonempty (trim (productName st))) eqn:Hn;
    [ destruct (nonempty (trim (expiryDate st))) eqn:He | ]; cbn [andb];
    [ | intros [] | intros [] ].
  intros [<- | []]. apply nonempty_true in Hn, He. unfold itemOf. cbn.
  repeat split; auto using str_or_nonempty; apply str_or_nonempty; discriminate.
Qed.

(** X25. When the store takes the record of a valid submission, the one
    notice is "Success" and the form is left cleared: empty name, category
    and expiry date, the barcode back to the initial barcode (or empty), and
    not saving. *)
Theorem handleSubmit_success store_accepts props st :
  trim (productName st) <> "" ->
  trim (expiryDate st) <> "" ->
  store_accepts (itemOf st) = true ->
  alerts (trace (handleSubmit store_accepts props st)) = ["Success"]
  /\ after st (trace (handleSubmit store_accepts props st))
     = {| productName := "";
          category := "";
          barcode := match initialBarcode props with Some b => b | None => "" end;
          expiryDate := "";
          saving := false |}.
Proof.
  intros Hn He Hs.
  rewrite (handleSubmit_validated Date_parse now store_accepts props st Hn He), Hs.
  split; [ reflexivity | ]. cbn.
  destruct (initialBarcode props) as [b |]; [ | reflexivity ].
  now destruct b.
Qed.

(** X26. A refused write can be retried: after a submission that the store
    refused, submitting the form as it was left hands the same record to the
    store again, and succeeds once the store takes it. *)
Theorem handleSubmit_retry refusing accepting props st :
  trim (productName st) <> "" ->
  trim (expiryDate st) <> "" ->
  refusing (itemOf st) = false ->
  accepting (itemOf st) = true ->
  alerts (trace (handleSubmit refusing props st)) = ["Error"]
  /\ writes (trace (handleSubmit accepting props
                      (after st (trace (handleSubmit refusing props st)))))
     = [itemOf st]
  /\ alerts (trace (handleSubmit accepting props
                      (after st (trace (handleSubmit refusing props st)))))
     = ["Success"].
Proof.
  intros Hn He Hr Ha.
  rewrite (handleSubmit_validated Date_parse now refusing props st Hn He), Hr.
  split; [ reflexivity | ].
  cbn [after fold_left apply productName category barcode expiryDate saving].
  set (st' := {| productName := productName st; category := category st;
                 barcode := barcode st; expiryDate := expiryDate st; saving := false |}).
  assert (Hi : itemOf st' = itemOf st) by reflexivity.
  rewrite (handleSubmit_validated Date_parse now accepting props st' Hn He), Hi, Ha.
  now split.
Qed.

(** X27. A submission never leaves the form saving: if the form is saving
    after it, it was saving before and the validation stopped it. *)
Theorem handleSubmit_ends_not_saving store_accepts props st :
  saving (after st (trace (handleSubmit store_accepts props st))) = true ->
  saving st = true
  /\ (trim (productName st) = "" \/ trim (expiryDate st) = "").
Proof.
  destruct (nonempty (trim (productName st))) eqn:Hn;
    [ destruct (nonempty (trim (expiryDate st))) eqn:He | ].
  - apply nonempty_true in Hn, He.
    rewrite (handleSubmit_validated Date_parse now store_accepts props st Hn He).
    destruct (store_accepts (itemOf st)); cbn; discriminate.
  - apply nonempty_false in He.
    destruct (handleSubmit_missing_information Date_parse now store_accepts props st
                (or_intror He)) as (_ & _ & ->). auto.
  - apply nonempty_false in Hn.
    destruct (handleSubmit_missing_information Date_parse now store_accepts props st
                (or_introl Hn)) as (_ & _ & ->). auto.
Qed.

(** X28. For an expiry date that parses, the label computed by lines 48-61
    is "EXPIRED" exactly from a full day past the expiry, "EXPIRES TODAY"
    exactly from less than a day past the expiry up to the expiry itself,
    and "Expires tomorrow" exactly within the day after that. *)
Theorem status_thresholds s tv :
  Date_parse s = Int tv ->
  (statusOf (ceil_div (sub (Date_parse s) (Int now)) msPerDay) = "EXPIRED"
   <-> tv - now <= - msPerDay)
  /\ (statusOf (ceil_div (sub (Date_parse s) (Int now)) msPerDay) = "EXPIRES TODAY"
      <-> - msPerDay < tv - now <= 0)
  /\ (statusOf (ceil_div (sub (Date_parse s) (Int now)) msPerDay) = "Expires tomorrow"
      <-> 0 < tv - now <= msPerDay).
Proof.
  intros ->. cbn [sub ceil_div]. change msPerDay with 86400000.
  pose proof (Z.div_mod (- (tv - now)) 86400000 ltac:(lia)) as Hd.
  pose proof (Z.mod_pos_bound (- (tv - now)) 86400000 ltac:(lia)) as Hb.
  set (d := - (- (tv - now) / 86400000)) in *.
  unfold statusOf, lt, strict_eq.
  destruct (Z.ltb_spec d 0); [ | destruct (Z.eqb_spec d 0); [ | destruct (Z.eqb_spec d 1) ] ];
    (split; [ | split ]); (split; intros H');
    solve [ reflexivity | discriminate H' | lia ].
Qed.

End More.

(** *** The theorems on sample forms *)

Local Abbreviation submit := (handleSubmit Samples.Date_parse Samples.now).

Lemma handleSubmit_written_record_witness :
  writes (trace (submit Samples.store_ok Samples.no_props Samples.form_milk))
  = [ {| Item.barcode := "Manual Entry"; Item.product_name := "Oat Milk";
         Item.category := "General"; Item.expiry_date := "2024-12-31";
         Item.ai_confidence := 1%Q |} ]
  /\ "Oat Milk" = trim (productName Samples.form_milk)
  /\ "Oat Milk" <> ""
  /\ "General" <> ""
  /\ "Manual Entry" <> ""
  /\ "2024-12-31" = expiryDate Samples.form_milk
  /\ trim "2024-12-31" <> ""
  /\ 1%Q = 1%Q.
Proof.
  split; [ reflexivity | ].
  apply (handleSubmit_written_record Samples.Date_parse Samples.now Samples.store_ok
           Samples.no_props Samples.form_milk
           {| Item.barcode := "Manual Entry"; Item.product_name := "Oat Milk";
              Item.category := "General"; Item.expiry_date := "2024-12-31";
              Item.ai_confidence := 1%Q |}).
  vm_compute. left. reflexivity.
Defined.

Lemma handleSubmit_success_witness :
  alerts (trace (submit Samples.store_ok Samples.props_scanned Samples.form_milk))
  = ["Success"]
  /\ after Samples.form_milk
       (trace (submit Samples.store_ok Samples.props_scanned Samples.form_milk))
     = {| productName := ""; category := ""; barcode := "4006381333931";
          expiryDate := ""; saving := false |}.
Proof.
  apply (handleSubmit_success Samples.Date_parse Samples.now Samples.store_ok
           Samples.props_scanned Samples.form_milk);
    [ vm_compute; discriminate | vm_compute; discriminate | reflexivity ].
Defined.

Lemma handleSubmit_retry_witness :
  alerts (trace (submit Samples.store_down Samples.no_props Samples.form_milk)) = ["Error"]
  /\ writes (trace (submit Samples.store_ok Samples.no_props
                      (after Samples.form_milk
                         (trace (submit Samples.store_down Samples.no_props
                                   Samples.form_milk)))))
     = [itemOf Samples.form_milk]
  /\ alerts (trace (submit Samples.store_ok Samples.no_props
                      (after Samples.form_milk
                         (trace (submit Samples.store_down Samples.no_props
                                   Samples.form_milk)))))
     = ["Success"].
Proof.
  apply (handleSubmit_retry Samples.Date_parse Samples.now Samples.store_down
           Samples.store_ok Samples.no_props Samples.form_milk);
    [ vm_compute; discriminate | vm_compute; discriminate | reflexivity | reflexivity ].
Defined.

Lemma handleSubmit_ends_not_saving_witness :
  saving Samples.form_blank_saving = true
  /\ (trim (productName Samples.form_blank_saving) = ""
      \/ trim (expiryDate Samples.form_blank_saving) = "").
Proof.
  apply (handleSubmit_ends_not_saving Samples.Date_parse Samples.now Samples.store_ok
           Samples.no_props Samples.form_blank_saving).
  reflexivity.
Defined.

Lemma status_thresholds_witness :
  (statusOf (ceil_div (sub (Samples.Date_parse "2024-12-31") (Int 1735606800000)) msPerDay)
   = "EXPIRED"
   <-> 1735603200000 - 1735606800000 <= - msPerDay)
  /\ (statusOf (ceil_div (sub (Samples.Date_parse "2024-12-31") (Int 1735606800000)) msPerDay)
      = "EXPIRES TODAY"
      <-> - msPerDay < 1735603200000 - 1735606800000 <= 0)
  /\ (statusOf (ceil_div (sub (Samples.Date_parse "2024-12-31") (Int 1735606800000)) msPerDay)
      = "Expires tomorrow"
      <-> 0 < 1735603200000 - 1735606800000 <= msPerDay).
Proof.
  apply (status_thresholds Samples.Date_parse 1735606800000 "2024-12-31" 1735603200000).
  reflexivity.
Defined.

(** One hour past the expiry the label is still "EXPIRES TODAY". *)
Example status_one_hour_late :
  statusOf (ceil_div (sub (Samples.Date_parse "2024-12-31") (Int 1735606800000)) msPerDay)
  = "EXPIRES TODAY".
Proof. reflexivity. Qed.

End ManualEntryMore.
